(** * Xling firmware: the battery monitor task

    A shallow embedding of [software/src/xling/tasks/battery_monitor_task.c]
    and the properties of its percentage conversion, its interrupt handler,
    its initialisation entry point and its periodic task loop.

    Target conventions (the file includes [avr/io.h], so the compiler is
    avr-gcc):
    - [int] is 16 bits wide and [uint16_t] is [unsigned int]; an operation
      on a [uint16_t] and an [int] constant is done on [unsigned int],
      modulo 2^16;
    - [double] is IEEE binary32 by default and binary64 with [-mdouble=64];
      the development is parametrised by the format and the results on the
      conversion are proved for both. *)

From Stdlib Require Import ZArith List Bool Lia QArith.
From Stdlib Require Import Floats.SpecFloat.
Import ListNotations.

Open Scope Z_scope.

(** ** Machine integers *)

Module CInt.

Definition wrap8 (x : Z) : Z := x mod 2 ^ 8.
Definition wrap16 (x : Z) : Z := x mod 2 ^ 16.

End CInt.

(** ** The C [double] type

    Floating-point values are the [spec_float] of the Standard Library, with
    its executable IEEE 754 operations (round to nearest even). *)

Module CDouble.

Inductive double_format : Type :=
| Binary32   (* avr-gcc default, -mdouble=32 *)
| Binary64.  (* -mdouble=64 *)

Definition prec (fmt : double_format) : Z :=
  match fmt with Binary32 => 24 | Binary64 => 53 end.

Definition emax (fmt : double_format) : Z :=
  match fmt with Binary32 => 128 | Binary64 => 1024 end.

(** Conversion of an integer to [double]. *)
Definition of_Z (fmt : double_format) (z : Z) : spec_float :=
  binary_normalize (prec fmt) (emax fmt) z 0 false.

(** The operator [/] on two [double]s. *)
Definition div (fmt : double_format) (x y : spec_float) : spec_float :=
  SFdiv (prec fmt) (emax fmt) x y.

(** The rational number a finite float stands for. *)
Definition to_Q (x : spec_float) : option Q :=
  match x with
  | S754_zero _ => Some 0%Q
  | S754_finite s m e =>
      Some (inject_Z (cond_Zopp s (Zpos m)) * Qpower 2 e)%Q
  | _ => None
  end.

(** [between lo hi x]: [x] is finite and its value lies in [[lo, hi]]. *)
Definition between (lo hi : Q) (x : spec_float) : Prop :=
  exists q, to_Q x = Some q /\ (lo <= q)%Q /\ (q <= hi)%Q.

Definition betweenb (lo hi : Q) (x : spec_float) : bool :=
  match to_Q x with
  | Some q => Qle_bool lo q && Qle_bool q hi
  | None => false
  end.

(** [above lo x]: [x] is finite and its value is strictly greater than [lo];
    [below hi x]: strictly smaller than [hi]. *)
Definition above (lo : Q) (x : spec_float) : Prop :=
  exists q, to_Q x = Some q /\ (lo < q)%Q.

Definition below (hi : Q) (x : spec_float) : Prop :=
  exists q, to_Q x = Some q /\ (q < hi)%Q.

Definition aboveb (lo : Q) (x : spec_float) : bool :=
  match to_Q x with
  | Some q => negb (Qle_bool q lo)
  | None => false
  end.

(** [lt_val x y]: both are finite and the value of [x] is strictly smaller
    than the value of [y]. *)
Definition lt_val (x y : spec_float) : Prop :=
  exists qx qy, to_Q x = Some qx /\ to_Q y = Some qy /\ (qx < qy)%Q.

Definition lt_valb (x y : spec_float) : bool :=
  match to_Q x, to_Q y with
  | Some qx, Some qy => negb (Qle_bool qy qx)
  | _, _ => false
  end.

End CDouble.

(** ** The battery monitor: [battery_monitor_task.c] *)

Module BatMon.
Import CInt CDouble.

(** *** Local macros *)

(** [#define SET_BIT(byte, bit) ((byte) |= (1U << (bit)))], on an 8-bit
    register. *)
Definition SET_BIT (byte bit : Z) : Z :=
  wrap8 (Z.lor byte (Z.shiftl 1 bit)).

(** [#define CLEAR_BIT(byte, bit) ((byte) &= (uint8_t) ~(1U << (bit)))]. *)
Definition CLEAR_BIT (byte bit : Z) : Z :=
  wrap8 (Z.land byte (wrap8 (Z.lnot (Z.shiftl 1 bit)))).

Definition BAT_MAX : Z := 700.
Definition BAT_MIN : Z := 545.
Definition TASK_PERIOD : Z := 100.

(** [#define BAT_PERCENT(v) ((v)-BAT_MIN)/((BAT_MAX-BAT_MIN)/100.0)]
    applied to the [uint16_t] variable [_bat_lvl]: the subtraction is an
    [unsigned int] one (modulo 2^16), its result is converted to [double]
    and divided by the [double] quotient of 155 and 100.0. *)
Definition BAT_PERCENT (fmt : double_format) (v : Z) : spec_float :=
  div fmt (of_Z fmt (wrap16 (v - BAT_MIN)))
          (div fmt (of_Z fmt (BAT_MAX - BAT_MIN)) (of_Z fmt 100)).

(** The formula as the specification words it, over the rationals:
    [(raw_level - BAT_MIN) / ((BAT_MAX - BAT_MIN) / 100.0)]. *)
Definition BAT_PERCENT_spec (r : Z) : Q :=
  (inject_Z (r - BAT_MIN) / (inject_Z (BAT_MAX - BAT_MIN) / 100))%Q.

(** *** ADC registers *)

(** Bit numbers of the ATmega1284P registers, as [avr/io.h] gives them. *)
Definition REFS1 : Z := 7.
Definition REFS0 : Z := 6.
Definition MUX4 : Z := 4.
Definition MUX3 : Z := 3.
Definition MUX2 : Z := 2.
Definition MUX1 : Z := 1.
Definition MUX0 : Z := 0.
Definition ADEN : Z := 7.
Definition ADSC : Z := 6.
Definition ADATE : Z := 5.
Definition ADIE : Z := 3.
Definition ADPS2 : Z := 2.
Definition ADPS1 : Z := 1.
Definition ADPS0 : Z := 0.
Definition ADTS2 : Z := 2.
Definition ADTS1 : Z := 1.
Definition ADTS0 : Z := 0.

Record adc_regs : Type := mk_adc_regs {
  ADMUX : Z;
  ADCSRA : Z;
  ADCSRB : Z
}.

Definition on_ADMUX (f : Z -> Z) (r : adc_regs) : adc_regs :=
  mk_adc_regs (f (ADMUX r)) (ADCSRA r) (ADCSRB r).
Definition on_ADCSRA (f : Z -> Z) (r : adc_regs) : adc_regs :=
  mk_adc_regs (ADMUX r) (f (ADCSRA r)) (ADCSRB r).
Definition on_ADCSRB (f : Z -> Z) (r : adc_regs) : adc_regs :=
  mk_adc_regs (ADMUX r) (ADCSRA r) (f (ADCSRB r)).

(** [static void init_adc(void)], statement by statement. *)
Definition init_adc (r : adc_regs) : adc_regs :=
  (* Select Vref = 1.1 V *)
  let r := on_ADMUX (fun b => SET_BIT b REFS1) r in
  let r := on_ADMUX (fun b => CLEAR_BIT b REFS0) r in
  (* prescaler 64 *)
  let r := on_ADCSRA (fun b => SET_BIT b ADPS2) r in
  let r := on_ADCSRA (fun b => SET_BIT b ADPS1) r in
  let r := on_ADCSRA (fun b => CLEAR_BIT b ADPS0) r in
  (* ADC3 as a single ended input *)
  let r := on_ADMUX (fun b => CLEAR_BIT b MUX4) r in
  let r := on_ADMUX (fun b => CLEAR_BIT b MUX3) r in
  let r := on_ADMUX (fun b => CLEAR_BIT b MUX2) r in
  let r := on_ADMUX (fun b => SET_BIT b MUX1) r in
  let r := on_ADMUX (fun b => SET_BIT b MUX0) r in
  (* free running mode *)
  let r := on_ADCSRB (fun b => CLEAR_BIT b ADTS2) r in
  let r := on_ADCSRB (fun b => CLEAR_BIT b ADTS1) r in
  let r := on_ADCSRB (fun b => CLEAR_BIT b ADTS0) r in
  (* enable ADC, its interrupt and auto trigger *)
  let r := on_ADCSRA (fun b => SET_BIT b ADEN) r in
  let r := on_ADCSRA (fun b => SET_BIT b ADIE) r in
  let r := on_ADCSRA (fun b => SET_BIT b ADATE) r in
  (* run the first conversion *)
  on_ADCSRA (fun b => SET_BIT b ADSC) r.

(** *** Messages *)

(** Modelled from the spec: [xling/msg.h], which declares [xm_msg_t] and
    the message types, is not among the sources.  The specification names a
    suspend-request type and a catch-all of ignored types on the inbound
    side, a battery-level and a battery-status-pin type on the outbound
    side, and says that the battery-level message carries a floating-point
    percentage; the field [value] is therefore taken to be a [double], and
    the status bit is converted to it on assignment. *)
Inductive xm_msg_type_t : Type :=
| XM_MSG_TASKSUSP_REQ
| XM_MSG_BATLVL
| XM_MSG_BATSTATPIN
| XM_MSG_OTHER (code : Z).

Record xm_msg_t : Type := mk_msg {
  type : xm_msg_type_t;
  value : spec_float
}.

Definition is_suspend_request (m : xm_msg_t) : bool :=
  match type m with XM_MSG_TASKSUSP_REQ => true | _ => false end.

(** *** FreeRTOS types and constants *)

Definition pdPASS : Z := 1.
Definition TaskHandle_t : Type := Z.

(** [TickType_t] is 16 or 32 bits wide ([configUSE_16_BIT_TICKS]). *)
Inductive tick_width : Type := Ticks16 | Ticks32.

Definition tick_bits (tw : tick_width) : Z :=
  match tw with Ticks16 => 16 | Ticks32 => 32 end.

Definition wrapT (tw : tick_width) (x : Z) : Z := x mod 2 ^ tick_bits tw.

(** *** The state of the system *)

(** The places of [batmon_task] at which the task can be preempted or
    blocked, by source line. *)
Inductive loc : Type :=
| L_init          (* line 114: last_wake_time = xTaskGetTickCount() *)
| L_delay         (* line 119: vTaskDelayUntil(&last_wake_time, TASK_DELAY) *)
| L_delayed       (* blocked inside vTaskDelayUntil *)
| L_recv          (* line 130: xQueueReceive(battery_queue, &msg, 0) *)
| L_notify_wait   (* line 140: xTaskNotifyWait(0, 0, NULL, portMAX_DELAY) *)
| L_send_lvl      (* lines 157-159: send XM_MSG_BATLVL *)
| L_send_stat.    (* lines 171-173: send XM_MSG_BATSTATPIN *)

(** What the code has done, latest first. *)
Inductive action : Type :=
| A_init_adc
| A_task_create (prio : Z) (status : Z)
| A_delay_until (wake : Z)
| A_recv (m : xm_msg_t)
| A_recv_empty
| A_notified
| A_send (m : xm_msg_t) (ok : bool).

Record world : Type := mk_world {
  (* hardware *)
  regs : adc_regs;
  (* file-scope variables *)
  _bat_lvl : Z;
  _bat_stat : Z;
  _task_handle : TaskHandle_t;
  (* batmon_task *)
  pc : loc;
  last_wake_time : Z;
  (* kernel *)
  xTickCount : Z;
  battery_queue : list xm_msg_t;
  display_queue : list xm_msg_t;
  notify_pending : bool;
  (* history *)
  log : list action
}.

Definition set_regs (x : adc_regs) (w : world) : world :=
  mk_world x (_bat_lvl w) (_bat_stat w) (_task_handle w) (pc w)
    (last_wake_time w) (xTickCount w) (battery_queue w) (display_queue w)
    (notify_pending w) (log w).
Definition set_sample (lvl stat : Z) (w : world) : world :=
  mk_world (regs w) lvl stat (_task_handle w) (pc w)
    (last_wake_time w) (xTickCount w) (battery_queue w) (display_queue w)
    (notify_pending w) (log w).
Definition set_task_handle (h : TaskHandle_t) (w : world) : world :=
  mk_world (regs w) (_bat_lvl w) (_bat_stat w) h (pc w)
    (last_wake_time w) (xTickCount w) (battery_queue w) (display_queue w)
    (notify_pending w) (log w).
Definition set_pc (l : loc) (w : world) : world :=
  mk_world (regs w) (_bat_lvl w) (_bat_stat w) (_task_handle w) l
    (last_wake_time w) (xTickCount w) (battery_queue w) (display_queue w)
    (notify_pending w) (log w).
Definition set_last_wake_time (t : Z) (w : world) : world :=
  mk_world (regs w) (_bat_lvl w) (_bat_stat w) (_task_handle w) (pc w)
    t (xTickCount w) (battery_queue w) (display_queue w)
    (notify_pending w) (log w).
Definition set_xTickCount (t : Z) (w : world) : world :=
  mk_world (regs w) (_bat_lvl w) (_bat_stat w) (_task_handle w) (pc w)
    (last_wake_time w) t (battery_queue w) (display_queue w)
    (notify_pending w) (log w).
Definition set_battery_queue (q : list xm_msg_t) (w : world) : world :=
  mk_world (regs w) (_bat_lvl w) (_bat_stat w) (_task_handle w) (pc w)
    (last_wake_time w) (xTickCount w) q (display_queue w)
    (notify_pending w) (log w).
Definition set_display_queue (q : list xm_msg_t) (w : world) : world :=
  mk_world (regs w) (_bat_lvl w) (_bat_stat w) (_task_handle w) (pc w)
    (last_wake_time w) (xTickCount w) (battery_queue w) q
    (notify_pending w) (log w).
Definition set_notify_pending (b : bool) (w : world) : world :=
  mk_world (regs w) (_bat_lvl w) (_bat_stat w) (_task_handle w) (pc w)
    (last_wake_time w) (xTickCount w) (battery_queue w) (display_queue w)
    b (log w).
Definition record (a : action) (w : world) : world :=
  mk_world (regs w) (_bat_lvl w) (_bat_stat w) (_task_handle w) (pc w)
    (last_wake_time w) (xTickCount w) (battery_queue w) (display_queue w)
    (notify_pending w) (a :: log w).

(** Startup: the static variables are zero, the task has not run yet. *)
Definition world0 (r : adc_regs) (now : Z) : world :=
  mk_world r 0 0 0 L_init 0 now [] [] false [].

(** *** The conversion-complete interrupt *)

(** [ISR(ADC_vect)]; the arguments are the contents of the 8-bit registers
    [ADCL], [ADCH] and [PINA] when the handler runs. *)
Definition ISR_ADC_vect (ADCL ADCH PINA : Z) (w : world) : world :=
  let lvl_low := wrap8 ADCL in
  let lvl_high := Z.land (wrap16 (Z.shiftl (wrap8 ADCH) 8)) 0x0300 in
  set_sample (wrap16 (Z.lor lvl_high lvl_low))
             (wrap8 (Z.land (wrap8 PINA) 1)) w.

(** *** Initialisation *)

Section Init.

(** FreeRTOS's [xTaskCreate], which is not among the sources, seen from
    the caller: the status it returns and, when a task is created, the
    handle it stores through its last argument. *)
Variable xTaskCreate : world -> Z -> Z * option TaskHandle_t.

(** [xt_init_battery_monitor(args, prio, task_handle)]; [slot] is the
    content of [*task_handle] before the call.  The result is the return
    code, the content of [*task_handle] after the call and the new state. *)
Definition xt_init_battery_monitor (prio : Z) (slot : TaskHandle_t)
    (w : world) : Z * TaskHandle_t * world :=
  let rc := 0 in
  let w := record A_init_adc (set_regs (init_adc (regs w)) w) in
  let '(status, created) := xTaskCreate w prio in
  let slot := match created with Some h => h | None => slot end in
  let w := record (A_task_create prio status) w in
  if negb (status =? pdPASS)
  then (1, slot, w)
  else (rc, slot, set_task_handle slot w).

(** The state [xTaskCreate] is called in: the ADC has been configured. *)
Definition configured (w : world) : world :=
  record A_init_adc (set_regs (init_adc (regs w)) w).

(** The status [xTaskCreate] returns to [xt_init_battery_monitor]. *)
Definition create_status (prio : Z) (w : world) : Z :=
  fst (xTaskCreate (configured w) prio).

(** The content of [*task_handle] once [xTaskCreate] has returned. *)
Definition created_handle (prio : Z) (slot : TaskHandle_t) (w : world)
  : TaskHandle_t :=
  match snd (xTaskCreate (configured w) prio) with
  | Some h => h
  | None => slot
  end.

End Init.

(** *** Kernel services used by the task *)

(** Modelled from the spec: the FreeRTOS kernel is not among the sources.
    A non-blocking receive is a queue operation that returns at once, with
    a failure indicator instead of waiting when the queue is empty:
    [xQueueReceive(q, &msg, 0)] gives the head of the queue and the rest of
    it, or nothing. *)
Definition xQueueReceive (q : list xm_msg_t)
  : option (xm_msg_t * list xm_msg_t) :=
  match q with
  | [] => None
  | m :: q' => Some (m, q')
  end.

(** Modelled from the spec: the FreeRTOS kernel is not among the sources.
    A non-blocking send returns at once, with a failure indicator instead
    of waiting when the queue is full: [xQueueSendToBack(q, &msg, 0)] on a
    queue of [len] slots gives the new queue, or nothing. *)
Definition xQueueSendToBack (len : nat) (q : list xm_msg_t) (m : xm_msg_t)
  : option (list xm_msg_t) :=
  if (length q <? len)%nat then Some (q ++ [m]) else None.

(** Is the wake time still ahead of the tick count [now]?  The comparison
    is on counts that wrap, with the previous wake time as the reference,
    as FreeRTOS makes it. *)
Definition should_delay (now prev wake : Z) : bool :=
  if now <? prev
  then (wake <? prev) && (now <? wake)
  else (wake <? prev) || (now <? wake).

(** Modelled from the spec: the FreeRTOS kernel is not among the sources.
    The task waits until the next fixed-period wake time, computed from the
    previous scheduled wake time and not from the current time:
    [vTaskDelayUntil(&prev, increment)] stores [prev + increment], a
    [TickType_t] sum, back into [prev] and makes the caller wait when that
    time is still ahead.  The result is the new content of [prev] and
    whether the caller waits. *)
Definition vTaskDelayUntil (tw : tick_width) (now prev increment : Z)
  : Z * bool :=
  let wake := wrapT tw (prev + increment) in
  (wake, should_delay now prev wake).

(** Modelled from the spec: the FreeRTOS kernel is not among the sources.
    [xTaskNotifyWait(0, 0, NULL, portMAX_DELAY)] blocks the task until a
    task notification arrives; a notification that is already pending is
    taken at once.  The result is nothing while the task is blocked, and
    the pending flag after the call otherwise. *)
Definition xTaskNotifyWait (pending : bool) : option bool :=
  if pending then Some false else None.

(** *** The task *)

(** What the build fixes for the task: the format of [double], the width
    of [TickType_t] ([configUSE_16_BIT_TICKS]), the period in ticks
    ([pdMS_TO_TICKS(TASK_PERIOD)]) and the lengths the two queues were
    created with. *)
Record config : Type := mk_config {
  fmt : double_format;
  tw : tick_width;
  TASK_DELAY : Z;
  display_queue_len : nat;
  battery_queue_len : nat
}.

Section Task.

Variable cfg : config.

(** One step of [batmon_task], from the place [pc w] to the next one;
    [None] when the task is blocked. *)
Definition batmon_task (w : world) : option world :=
  match pc w with
  | L_init =>
      Some (set_pc L_delay (set_last_wake_time (xTickCount w) w))
  | L_delay =>
      let '(wake, wait) :=
        vTaskDelayUntil (tw cfg) (xTickCount w) (last_wake_time w)
          (TASK_DELAY cfg) in
      Some (set_pc (if wait then L_delayed else L_recv)
              (set_last_wake_time wake (record (A_delay_until wake) w)))
  | L_delayed => None
  | L_recv =>
      match xQueueReceive (battery_queue w) with
      | Some (msg, q) =>
          let w := record (A_recv msg) (set_battery_queue q w) in
          match type msg with
          | XM_MSG_TASKSUSP_REQ => Some (set_pc L_notify_wait w)
          | _ => Some (set_pc L_recv w)
          end
      | None => Some (set_pc L_send_lvl (record A_recv_empty w))
      end
  | L_notify_wait =>
      match xTaskNotifyWait (notify_pending w) with
      | Some pending =>
          Some (set_pc L_recv
                  (record A_notified (set_notify_pending pending w)))
      | None => None
      end
  | L_send_lvl =>
      let msg := mk_msg XM_MSG_BATLVL (BAT_PERCENT (fmt cfg) (_bat_lvl w)) in
      match xQueueSendToBack (display_queue_len cfg) (display_queue w) msg with
      | Some q =>
          Some (set_pc L_send_stat
                  (record (A_send msg true) (set_display_queue q w)))
      | None =>
          (* continue *)
          Some (set_pc L_delay (record (A_send msg false) w))
      end
  | L_send_stat =>
      let msg := mk_msg XM_MSG_BATSTATPIN (of_Z (fmt cfg) (_bat_stat w)) in
      match xQueueSendToBack (display_queue_len cfg) (display_queue w) msg with
      | Some q =>
          Some (set_pc L_delay
                  (record (A_send msg true) (set_display_queue q w)))
      | None =>
          (* continue *)
          Some (set_pc L_delay (record (A_send msg false) w))
      end
  end.

(** *** The rest of the system *)

Inductive event : Type :=
| E_task                          (* the task runs up to its next place *)
| E_tick                          (* the kernel's tick interrupt *)
| E_adc (ADCL ADCH PINA : Z)      (* the conversion-complete interrupt *)
| E_post (m : xm_msg_t)           (* another task posts to the battery queue *)
| E_notify                        (* another task notifies the task *)
| E_display_take.                 (* the display task takes a message *)

(** The tick interrupt: the count advances and a task whose wake time has
    come leaves [vTaskDelayUntil]. *)
Definition tick (w : world) : world :=
  let now := wrapT (tw cfg) (xTickCount w + 1) in
  let w := set_xTickCount now w in
  match pc w with
  | L_delayed => if now =? last_wake_time w then set_pc L_recv w else w
  | _ => w
  end.

Definition step (e : event) (w : world) : world :=
  match e with
  | E_task =>
      match batmon_task w with
      | Some w' => w'
      | None => w
      end
  | E_tick => tick w
  | E_adc l h p => ISR_ADC_vect l h p w
  | E_post m =>
      match xQueueSendToBack (battery_queue_len cfg) (battery_queue w) m with
      | Some q => set_battery_queue q w
      | None => w
      end
  | E_notify => set_notify_pending true w
  | E_display_take => set_display_queue (tl (display_queue w)) w
  end.

Definition run (evs : list event) (w : world) : world :=
  fold_left (fun w e => step e w) evs w.

End Task.

(** *** Reading the history *)

(** The history in the order of time. *)
Definition trace (w : world) : list action := rev (log w).

(** The wake times handed to [vTaskDelayUntil], latest first. *)
Fixpoint wake_times (l : list action) : list Z :=
  match l with
  | [] => []
  | A_delay_until t :: l' => t :: wake_times l'
  | _ :: l' => wake_times l'
  end.

(** The messages taken from the battery queue, latest first. *)
Fixpoint received (l : list action) : list xm_msg_t :=
  match l with
  | [] => []
  | A_recv m :: l' => m :: received l'
  | _ :: l' => received l'
  end.

(** The send attempts since the latest call of [vTaskDelayUntil], latest
    first. *)
Fixpoint sends_of_tick (l : list action) : list (xm_msg_type_t * bool) :=
  match l with
  | [] => []
  | A_delay_until _ :: _ => []
  | A_send m ok :: l' => (type m, ok) :: sends_of_tick l'
  | _ :: l' => sends_of_tick l'
  end.

(** The histories of the successive ticks, latest first: a tick starts at
    a call of [vTaskDelayUntil]. *)
Fixpoint ticks (l : list action) : list (list action) :=
  match l with
  | [] => []
  | a :: l' =>
      match a with
      | A_delay_until _ => [a] :: ticks l'
      | _ =>
          match ticks l' with
          | [] => [[a]]
          | t :: ts => (a :: t) :: ts
          end
      end
  end.

(** *** Predicates on states and histories *)

(** The shared sample state holds a 10-bit level and a one-bit status. *)
Definition sample_ok (w : world) : Prop :=
  0 <= _bat_lvl w <= 1023 /\ (_bat_stat w = 0 \/ _bat_stat w = 1).

Definition is_adc (e : event) : bool :=
  match e with E_adc _ _ _ => true | _ => false end.

Definition is_notify (e : event) : bool :=
  match e with E_notify => true | _ => false end.

(** The send attempts a tick may show, in the order of time: none yet, the
    battery level alone (refused or accepted), or the battery level
    accepted and then the status pin. *)
Definition tick_sends_ok (s : list (xm_msg_type_t * bool)) : Prop :=
  s = [] \/
  s = [(XM_MSG_BATLVL, false)] \/
  s = [(XM_MSG_BATLVL, true)] \/
  exists ok, s = [(XM_MSG_BATLVL, true); (XM_MSG_BATSTATPIN, ok)].

(** Every tick of a history shows an allowed sequence of send attempts. *)
Definition ticks_ok (l : list action) : Prop :=
  Forall (fun t => tick_sends_ok (rev (sends_of_tick t))) (ticks l).

(** What the place of the task says about the send attempts of the tick
    in progress. *)
Definition sends_at (l : loc) (s : list (xm_msg_type_t * bool)) : Prop :=
  match l with
  | L_init | L_delay => True
  | L_delayed | L_recv | L_notify_wait | L_send_lvl => s = []
  | L_send_stat => s = [(XM_MSG_BATLVL, true)]
  end.

Definition tick_inv (w : world) : Prop :=
  ticks_ok (log w) /\ sends_at (pc w) (sends_of_tick (log w)).

(** [w'] differs from [w] at most in the place of the task, the battery
    queue and the history. *)
Definition drain_frame (w w' : world) : Prop :=
  regs w' = regs w /\ _bat_lvl w' = _bat_lvl w /\
  _bat_stat w' = _bat_stat w /\ _task_handle w' = _task_handle w /\
  last_wake_time w' = last_wake_time w /\ xTickCount w' = xTickCount w /\
  display_queue w' = display_queue w /\
  notify_pending w' = notify_pending w.

(** The [k]-th wake time of a task that started at [start], in
    [TickType_t] arithmetic. *)
Definition scheduled_wake (cfg : config) (start : Z) (k : nat) : Z :=
  wrapT (tw cfg) (start + Z.of_nat k * TASK_DELAY cfg).

(** The value of [last_wake_time] after [k] calls of [vTaskDelayUntil]. *)
Definition wake_after (cfg : config) (start : Z) (k : nat) : Z :=
  match k with
  | O => start
  | S _ => scheduled_wake cfg start k
  end.

Definition wake_inv (cfg : config) (start : Z) (w : world) : Prop :=
  pc w <> L_init /\
  last_wake_time w = wake_after cfg start (length (wake_times (log w))) /\
  rev (wake_times (log w)) =
    map (scheduled_wake cfg start) (seq 1 (length (wake_times (log w)))).

(** The messages the battery-level and the status-pin steps build. *)
Definition batlvl_msg (cfg : config) (w : world) : xm_msg_t :=
  mk_msg XM_MSG_BATLVL (BAT_PERCENT (fmt cfg) (_bat_lvl w)).

Definition batstatpin_msg (cfg : config) (w : world) : xm_msg_t :=
  mk_msg XM_MSG_BATSTATPIN (of_Z (fmt cfg) (_bat_stat w)).

(** A build to try the model on: binary32 [double], 16-bit ticks at 1 kHz,
    queues of four messages. *)
Definition test_config : config := mk_config Binary32 Ticks16 100 4 4.

(** One period of a task that started at tick 1000, with the tick count
    running on between its steps. *)
Definition one_period : list event :=
  [E_task] ++ repeat E_tick 107 ++
  [E_task; E_tick; E_task; E_task; E_tick; E_tick; E_task].

Arguments BAT_PERCENT : simpl never.
Arguments of_Z : simpl never.

(** *** More readings of states and histories *)

(** The messages the task handed to [xQueueSendToBack], accepted or
    refused, latest first. *)
Fixpoint sent (l : list action) : list xm_msg_t :=
  match l with
  | [] => []
  | A_send m _ :: l' => m :: sent l'
  | _ :: l' => sent l'
  end.

(** What a message of the task can be: a battery level with a finite value
    from 0 to 42281, or a status pin with the value 0 or 1. *)
Definition display_msg_ok (f : double_format) (m : xm_msg_t) : Prop :=
  (type m = XM_MSG_BATLVL /\ between 0 42281 (value m)) \/
  (type m = XM_MSG_BATSTATPIN /\
   (value m = of_Z f 0 \/ value m = of_Z f 1)).

Definition sent_inv (cfg : config) (w : world) : Prop :=
  sample_ok w /\ Forall (display_msg_ok (fmt cfg)) (sent (log w)).

End BatMon.

(** * Properties *)

Module CIntFacts.
Import CInt.

Lemma wrap8_range (x : Z) : 0 <= wrap8 x < 256.
Proof. unfold wrap8. change (2 ^ 8) with 256. apply Z.mod_pos_bound. lia. Qed.

Lemma wrap16_range (x : Z) : 0 <= wrap16 x < 65536.
Proof.
  unfold wrap16. change (2 ^ 16) with 65536. apply Z.mod_pos_bound. lia.
Qed.

Lemma wrap8_small (x : Z) : 0 <= x < 256 -> wrap8 x = x.
Proof. intros H. unfold wrap8. change (2 ^ 8) with 256. apply Z.mod_small, H. Qed.

Lemma wrap16_small (x : Z) : 0 <= x < 65536 -> wrap16 x = x.
Proof.
  intros H. unfold wrap16. change (2 ^ 16) with 65536. apply Z.mod_small, H.
Qed.

(** A boolean test that holds on every index of a segment holds on every
    integer of the segment. *)
Lemma forall_segment (f : Z -> bool) (lo : Z) (n : nat) :
  forallb (fun k => f (lo + Z.of_nat k)) (seq 0 n) = true ->
  forall r, lo <= r < lo + Z.of_nat n -> f r = true.
Proof.
  intros H r Hr. rewrite forallb_forall in H.
  specialize (H (Z.to_nat (r - lo))).
  rewrite Z2Nat.id in H by lia.
  replace (lo + (r - lo)) with r in H by lia.
  apply H. apply in_seq. lia.
Qed.

End CIntFacts.

Module CDoubleFacts.
Import CDouble.

Lemma betweenb_between (lo hi : Q) (x : spec_float) :
  betweenb lo hi x = true -> between lo hi x.
Proof.
  unfold betweenb, between. destruct (to_Q x) as [q|]; [|discriminate].
  intros H. apply andb_true_iff in H. destruct H as [H1 H2].
  exists q. rewrite <- !Qle_bool_iff. auto.
Qed.

Lemma aboveb_above (lo : Q) (x : spec_float) :
  aboveb lo x = true -> above lo x.
Proof.
  unfold aboveb, above. destruct (to_Q x) as [q|]; [|discriminate].
  intros H. exists q. split; [reflexivity|].
  apply Qnot_le_lt. intros Hle. apply Qle_bool_iff in Hle.
  rewrite Hle in H. discriminate.
Qed.

Lemma above_not_below (lo hi : Q) (x : spec_float) :
  (hi <= lo)%Q -> above lo x -> ~ below hi x.
Proof.
  intros Hle [q [Hq Hlt]] [q' [Hq' Hlt']].
  rewrite Hq in Hq'. injection Hq' as <-.
  apply (Qlt_irrefl q). apply Qlt_trans with hi; [exact Hlt'|].
  apply Qle_lt_trans with lo; assumption.
Qed.

Lemma above_not_between (lo hi b : Q) (x : spec_float) :
  (hi <= b)%Q -> above b x -> ~ between lo hi x.
Proof.
  intros Hle [q [Hq Hlt]] [q' [Hq' [_ Hhi]]].
  rewrite Hq in Hq'. injection Hq' as <-.
  apply (Qlt_irrefl q). apply Qle_lt_trans with hi; [exact Hhi|].
  apply Qle_lt_trans with b; assumption.
Qed.

Lemma between_not_between (lo hi lo' hi' : Q) (x : spec_float) :
  (hi < lo')%Q -> between lo hi x -> ~ between lo' hi' x.
Proof.
  intros Hlt [q [Hq [_ Hhi]]] [q' [Hq' [Hlo' _]]].
  rewrite Hq in Hq'. injection Hq' as <-.
  apply (Qlt_irrefl q). apply Qle_lt_trans with hi; [exact Hhi|].
  apply Qlt_le_trans with lo'; assumption.
Qed.

End CDoubleFacts.

(** ** The percentage conversion *)

Module Percent.
Import CInt CDouble BatMon CIntFacts CDoubleFacts.

(** The constant divisor of the macro is the [double] nearest to 1.55. *)
Lemma divisor_value (fmt : double_format) :
  between (155 # 100) (155001 # 100000)
    (div fmt (of_Z fmt (BAT_MAX - BAT_MIN)) (of_Z fmt 100))
  \/ between (154999 # 100000) (155 # 100)
    (div fmt (of_Z fmt (BAT_MAX - BAT_MIN)) (of_Z fmt 100)).
Proof.
  destruct fmt; [right|left]; apply betweenb_between; vm_compute; reflexivity.
Qed.

Lemma in_range_all (fmt : double_format) (r : Z) :
  BAT_MIN <= r <= BAT_MAX -> betweenb 0 100 (BAT_PERCENT fmt r) = true.
Proof.
  intros H.
  apply (forall_segment (fun r => betweenb 0 100 (BAT_PERCENT fmt r)) 545 156).
  - destruct fmt; vm_compute; reflexivity.
  - unfold BAT_MIN, BAT_MAX in H. lia.
Qed.

(** On [[BAT_MIN, BAT_MAX]] the macro computes the formula of the
    specification, up to rounding. *)
Lemma percent_near_spec (fmt : double_format) (r : Z) :
  BAT_MIN <= r <= BAT_MAX ->
  between (BAT_PERCENT_spec r - (1 # 10000)) (BAT_PERCENT_spec r + (1 # 10000))
    (BAT_PERCENT fmt r).
Proof.
  intros H. apply betweenb_between.
  apply (forall_segment
           (fun r => betweenb (BAT_PERCENT_spec r - (1 # 10000))
                       (BAT_PERCENT_spec r + (1 # 10000))
                       (BAT_PERCENT fmt r)) 545 156).
  - destruct fmt; vm_compute; reflexivity.
  - unfold BAT_MIN, BAT_MAX in H. lia.
Qed.

(** C1: for every raw reading [r] with [BAT_MIN <= r <= BAT_MAX] the
    percentage [BAT_PERCENT(r)] lies in [[0, 100]]; at [BAT_MIN] it is
    exactly 0 and at [BAT_MAX] exactly 100 (in both formats of [double]). *)
Theorem C1_percent_in_range (fmt : double_format) (r : Z) :
  BAT_MIN <= r <= BAT_MAX ->
  between 0 100 (BAT_PERCENT fmt r) /\
  BAT_PERCENT fmt BAT_MIN = S754_zero false /\
  between 0 0 (BAT_PERCENT fmt BAT_MIN) /\
  BAT_PERCENT fmt BAT_MAX = of_Z fmt 100 /\
  between 100 100 (BAT_PERCENT fmt BAT_MAX).
Proof.
  intros H. split; [apply betweenb_between, in_range_all, H|].
  destruct fmt; repeat split;
    try (vm_compute; reflexivity);
    apply betweenb_between; vm_compute; reflexivity.
Qed.

Lemma C1_percent_in_range_witness :
  BAT_MIN <= 600 <= BAT_MAX /\
  between 0 100 (BAT_PERCENT Binary32 600).
Proof.
  split.
  - unfold BAT_MIN, BAT_MAX. lia.
  - apply (C1_percent_in_range Binary32 600). unfold BAT_MIN, BAT_MAX. lia.
Defined.

(** The reading 622 does not give 50: 77 / 1.55 is about 49.68. *)
Lemma C2_percent_622_not_50 :
  ~ between 50 50 (BAT_PERCENT Binary32 622) /\
  ~ between 50 50 (BAT_PERCENT Binary64 622).
Proof.
  split;
    apply (between_not_between (4967 # 100) (4968 # 100)); try reflexivity;
    apply betweenb_between; vm_compute; reflexivity.
Qed.

Lemma percent_622 (fmt : double_format) :
  between (4967 # 100) (4968 # 100) (BAT_PERCENT fmt 622).
Proof. destruct fmt; apply betweenb_between; vm_compute; reflexivity. Qed.

(** Readings above [BAT_MAX] give more than 100. *)
Lemma above_max (fmt : double_format) (r : Z) :
  BAT_MAX < r <= 1023 -> above 100 (BAT_PERCENT fmt r).
Proof.
  intros H. apply aboveb_above.
  apply (forall_segment (fun r => aboveb 100 (BAT_PERCENT fmt r)) 701 323).
  - destruct fmt; vm_compute; reflexivity.
  - unfold BAT_MAX in H. lia.
Qed.

(** Readings below [BAT_MIN] give more than 41929, because the unsigned
    subtraction wraps. *)
Lemma below_min (fmt : double_format) (r : Z) :
  0 <= r < BAT_MIN -> above 41929 (BAT_PERCENT fmt r).
Proof.
  intros H. apply aboveb_above.
  apply (forall_segment (fun r => aboveb 41929 (BAT_PERCENT fmt r)) 0 545).
  - destruct fmt; vm_compute; reflexivity.
  - unfold BAT_MIN in H. lia.
Qed.

(** C3: for a reading below [BAT_MIN] the code does not produce a negative
    percentage: at 544 (and at 0, the value at startup) the unsigned
    subtraction wraps to 65535 (64991) and the percentage is above 42280
    (41929), where the formula of the specification gives a negative
    number; so it is for every reading below [BAT_MIN].  Readings above
    [BAT_MAX], 800 among them, give more than 100, and the value goes into
    the message as computed. *)
Theorem C3_below_min_wraps (fmt : double_format) :
  wrap16 (544 - BAT_MIN) = 65535 /\
  above 42280 (BAT_PERCENT fmt 544) /\
  ~ below 0 (BAT_PERCENT fmt 544) /\
  above 41929 (BAT_PERCENT fmt 0) /\
  ~ below 0 (BAT_PERCENT fmt 0) /\
  (BAT_PERCENT_spec 544 < 0)%Q /\
  (BAT_PERCENT_spec 0 < 0)%Q /\
  (forall r, 0 <= r < BAT_MIN ->
     above 41929 (BAT_PERCENT fmt r) /\ ~ below 0 (BAT_PERCENT fmt r)) /\
  above 100 (BAT_PERCENT fmt 800) /\
  (forall r, BAT_MAX < r <= 1023 -> above 100 (BAT_PERCENT fmt r)) /\
  (forall cfg w,
     value (batlvl_msg cfg w) = BAT_PERCENT (BatMon.fmt cfg) (_bat_lvl w)).
Proof.
  assert (H544 : above 42280 (BAT_PERCENT fmt 544))
    by (destruct fmt; apply aboveb_above; vm_compute; reflexivity).
  assert (H0 : above 41929 (BAT_PERCENT fmt 0))
    by (destruct fmt; apply aboveb_above; vm_compute; reflexivity).
  split; [reflexivity|].
  split; [exact H544|].
  split; [apply (above_not_below 42280); [discriminate | exact H544]|].
  split; [exact H0|].
  split; [apply (above_not_below 41929); [discriminate | exact H0]|].
  split; [reflexivity|]. split; [reflexivity|].
  split.
  { intros r Hr. split; [apply below_min, Hr|].
    apply (above_not_below 41929); [discriminate | apply below_min, Hr]. }
  split; [apply (above_max fmt 800); unfold BAT_MAX; lia|].
  split; [intros r Hr; apply above_max, Hr|].
  intros cfg w. reflexivity.
Qed.

End Percent.

(** ** The interrupt handler and the shared sample state *)

Module Sample.
Import CInt CDouble BatMon CIntFacts.

Lemma lt_pow2_log2 (a n : Z) : 0 < n -> 0 <= a -> Z.log2 a < n -> a < 2 ^ n.
Proof.
  intros Hn Ha Hlog. destruct (Z.eq_dec a 0) as [->|Hne].
  - apply Z.pow_pos_nonneg; lia.
  - apply Z.log2_lt_pow2; lia.
Qed.

Lemma log2_lt_of_lt_pow2 (a n : Z) : 0 < n -> 0 <= a < 2 ^ n -> Z.log2 a < n.
Proof.
  intros Hn [Ha Hlt]. destruct (Z.eq_dec a 0) as [->|Hne].
  - simpl. exact Hn.
  - apply Z.log2_lt_pow2; lia.
Qed.

Lemma lor_below_pow2 (n a b : Z) :
  0 < n -> 0 <= a < 2 ^ n -> 0 <= b < 2 ^ n -> 0 <= Z.lor a b < 2 ^ n.
Proof.
  intros Hn Ha Hb.
  assert (Hnn : 0 <= Z.lor a b) by (apply Z.lor_nonneg; lia).
  split; [exact Hnn|].
  apply lt_pow2_log2; try assumption.
  rewrite Z.log2_lor by lia.
  apply Z.max_lub_lt; apply log2_lt_of_lt_pow2; assumption.
Qed.

Lemma land_mask_below_pow2 (n a m : Z) :
  0 < n -> 0 <= a -> 0 <= m < 2 ^ n -> 0 <= Z.land a m < 2 ^ n.
Proof.
  intros Hn Ha Hm.
  assert (Hnn : 0 <= Z.land a m) by (apply Z.land_nonneg; lia).
  split; [exact Hnn|].
  apply lt_pow2_log2; try assumption.
  apply Z.le_lt_trans with (Z.min (Z.log2 a) (Z.log2 m)).
  - apply Z.log2_land; lia.
  - apply Z.le_lt_trans with (Z.log2 m); [apply Z.le_min_r|].
    apply log2_lt_of_lt_pow2; assumption.
Qed.

(** The level the handler stores is a 10-bit number and the status it
    stores is one bit, whatever the registers hold. *)
Lemma ISR_sample_ok (l h p : Z) (w : world) :
  sample_ok (ISR_ADC_vect l h p w).
Proof.
  unfold sample_ok, ISR_ADC_vect. cbn [_bat_lvl _bat_stat set_sample].
  split.
  - assert (Hhi : 0 <= Z.land (wrap16 (Z.shiftl (wrap8 h) 8)) 0x0300 < 2 ^ 10).
    { apply land_mask_below_pow2; [lia | apply wrap16_range | ].
      change (2 ^ 10) with 1024. lia. }
    assert (Hlo : 0 <= wrap8 l < 2 ^ 10).
    { pose proof (wrap8_range l). change (2 ^ 10) with 1024. lia. }
    pose proof (lor_below_pow2 10 _ _ ltac:(lia) Hhi Hlo) as Hor.
    change (2 ^ 10) with 1024 in Hor.
    rewrite wrap16_small by lia. lia.
  - assert (Hbit : Z.land (wrap8 p) 1 = wrap8 p mod 2)
      by (apply (Z.land_ones (wrap8 p) 1); lia).
    rewrite Hbit.
    pose proof (Z.mod_pos_bound (wrap8 p) 2 ltac:(lia)) as Hb.
    rewrite wrap8_small by lia. lia.
Qed.

Section WithConfig.

Variable cfg : config.

(** The task only reads the sample state. *)
Lemma batmon_task_sample (w w' : world) :
  batmon_task cfg w = Some w' ->
  _bat_lvl w' = _bat_lvl w /\ _bat_stat w' = _bat_stat w.
Proof.
  unfold BatMon.batmon_task. intros H.
  destruct (pc w);
    repeat match type of H with
    | context [match ?x with _ => _ end] => destruct x
    end;
    try discriminate; injection H as <-; split; reflexivity.
Qed.

Lemma step_sample (e : event) (w : world) :
  is_adc e = false ->
  _bat_lvl (step cfg e w) = _bat_lvl w /\ _bat_stat (step cfg e w) = _bat_stat w.
Proof.
  destruct e; cbn [is_adc BatMon.step]; intros He; try discriminate.
  - destruct (batmon_task cfg w) as [w'|] eqn:Ht; [|split; reflexivity].
    apply batmon_task_sample, Ht.
  - unfold tick. cbn [pc set_xTickCount].
    destruct (pc w); try (split; reflexivity).
    cbn [last_wake_time].
    destruct (_ =? _); split; reflexivity.
  - destruct (xQueueSendToBack _ _ _); split; reflexivity.
  - split; reflexivity.
  - split; reflexivity.
Qed.

Lemma step_sample_ok (e : event) (w : world) :
  sample_ok w -> sample_ok (step cfg e w).
Proof.
  intros Hw. destruct (is_adc e) eqn:He.
  - destruct e; try discriminate. apply ISR_sample_ok.
  - destruct (step_sample e w He) as [H1 H2].
    unfold sample_ok. rewrite H1, H2. exact Hw.
Qed.

Lemma run_sample_ok (evs : list event) (w : world) :
  sample_ok w -> sample_ok (run cfg evs w).
Proof.
  revert w. induction evs as [|e evs IH]; intros w Hw; [exact Hw|].
  cbn [BatMon.run fold_left]. apply IH, step_sample_ok, Hw.
Qed.

Variable xTaskCreate : world -> Z -> Z * option TaskHandle_t.

Lemma init_sample (prio : Z) (slot : TaskHandle_t) (w : world) :
  let w' := snd (xt_init_battery_monitor xTaskCreate prio slot w) in
  _bat_lvl w' = _bat_lvl w /\ _bat_stat w' = _bat_stat w.
Proof.
  unfold xt_init_battery_monitor.
  destruct (xTaskCreate _ prio) as [status created].
  destruct (negb (status =? pdPASS)); split; reflexivity.
Qed.

(** C9: the shared sample state is zero at startup, and at startup, after
    every execution of the conversion-complete handler and in every state
    the system reaches, [_bat_lvl] lies in [[0, 1023]] and [_bat_stat] is 0
    or 1; no other step of the system (the task, the tick, the other tasks,
    the initialisation) writes either variable. *)
Theorem C9_sample_state_invariant :
  (forall r now,
     _bat_lvl (world0 r now) = 0 /\ _bat_stat (world0 r now) = 0 /\
     sample_ok (world0 r now)) /\
  (forall l h p w, sample_ok (ISR_ADC_vect l h p w)) /\
  (forall evs r now, sample_ok (run cfg evs (world0 r now))) /\
  (forall e w,
     _bat_lvl (step cfg e w) <> _bat_lvl w \/ _bat_stat (step cfg e w) <> _bat_stat w ->
     exists l h p, e = E_adc l h p) /\
  (forall prio slot w,
     let w' := snd (xt_init_battery_monitor xTaskCreate prio slot w) in
     _bat_lvl w' = _bat_lvl w /\ _bat_stat w' = _bat_stat w).
Proof.
  assert (H0 : forall r now, sample_ok (world0 r now)).
  { intros r now. unfold sample_ok. cbn. lia. }
  repeat apply conj.
  - intros r now. repeat split; try reflexivity; apply H0.
  - apply ISR_sample_ok.
  - intros evs r now. apply run_sample_ok, H0.
  - intros e w H. destruct (is_adc e) eqn:He.
    + destruct e; try discriminate. eauto.
    + destruct (step_sample e w He) as [H1 H2]. destruct H; contradiction.
  - apply init_sample.
Qed.

End WithConfig.

End Sample.

(** ** The register macros and the ADC configuration *)

Module Registers.
Import CInt CDouble BatMon CIntFacts.

Lemma wrap8_bits (a i : Z) :
  0 <= i -> Z.testbit (wrap8 a) i = (i <? 8) && Z.testbit a i.
Proof.
  intros Hi. unfold wrap8. destruct (Z.ltb_spec i 8).
  - rewrite Z.mod_pow2_bits_low by lia. reflexivity.
  - rewrite Z.mod_pow2_bits_high by lia. reflexivity.
Qed.

Lemma one_shifted_bits (n i : Z) :
  0 <= n -> 0 <= i -> Z.testbit (Z.shiftl 1 n) i = (i =? n).
Proof.
  intros Hn Hi. rewrite Z.shiftl_1_l, Z.pow2_bits_eqb by lia.
  apply Z.eqb_sym.
Qed.

Lemma SET_BIT_testbit (byte n i : Z) :
  0 <= n < 8 -> 0 <= i ->
  Z.testbit (SET_BIT byte n) i
  = (i <? 8) && ((i =? n) || Z.testbit byte i).
Proof.
  intros Hn Hi. unfold SET_BIT. rewrite wrap8_bits by lia.
  rewrite Z.lor_spec, one_shifted_bits by lia.
  rewrite (orb_comm (Z.testbit byte i)). reflexivity.
Qed.

Lemma CLEAR_BIT_testbit (byte n i : Z) :
  0 <= n < 8 -> 0 <= i ->
  Z.testbit (CLEAR_BIT byte n) i
  = (i <? 8) && (negb (i =? n) && Z.testbit byte i).
Proof.
  intros Hn Hi. unfold CLEAR_BIT. rewrite wrap8_bits by lia.
  rewrite Z.land_spec, wrap8_bits by lia.
  rewrite Z.lnot_spec, one_shifted_bits by lia.
  destruct (i <? 8), (i =? n), (Z.testbit byte i); reflexivity.
Qed.

(** X1: [SET_BIT] on a bit number from 0 to 7 gives a byte in which the
    named bit is set and the seven others are those of the register. *)
Theorem X1_SET_BIT_bits (byte n i : Z) :
  0 <= n < 8 -> 0 <= i ->
  Z.testbit (SET_BIT byte n) i
  = (i <? 8) && ((i =? n) || Z.testbit byte i) /\
  0 <= SET_BIT byte n < 256.
Proof.
  intros Hn Hi. split; [apply SET_BIT_testbit; assumption|].
  unfold SET_BIT. apply wrap8_range.
Qed.

Lemma X1_SET_BIT_bits_witness :
  0 <= 7 < 8 /\ 0 <= 7 /\ Z.testbit (SET_BIT 0x03 7) 7 = true.
Proof.
  split; [lia|]. split; [lia|].
  exact (proj1 (X1_SET_BIT_bits 0x03 7 7 ltac:(lia) ltac:(lia))).
Defined.

(** X2: [CLEAR_BIT] on a bit number from 0 to 7 gives a byte in which the
    named bit is clear and the seven others are those of the register. *)
Theorem X2_CLEAR_BIT_bits (byte n i : Z) :
  0 <= n < 8 -> 0 <= i ->
  Z.testbit (CLEAR_BIT byte n) i
  = (i <? 8) && (negb (i =? n) && Z.testbit byte i) /\
  0 <= CLEAR_BIT byte n < 256.
Proof.
  intros Hn Hi. split; [apply CLEAR_BIT_testbit; assumption|].
  unfold CLEAR_BIT. apply wrap8_range.
Qed.

Lemma X2_CLEAR_BIT_bits_witness :
  0 <= 6 < 8 /\ 0 <= 6 /\ Z.testbit (CLEAR_BIT 0xFF 6) 6 = false.
Proof.
  split; [lia|]. split; [lia|].
  exact (proj1 (X2_CLEAR_BIT_bits 0xFF 6 6 ltac:(lia) ltac:(lia))).
Defined.

(** The macros see the low byte of their operand only. *)
Lemma SET_BIT_wrap8 (byte n : Z) :
  0 <= n < 8 -> SET_BIT byte n = SET_BIT (wrap8 byte) n.
Proof.
  intros Hn. apply Z.bits_inj'. intros i Hi.
  unfold SET_BIT. rewrite !wrap8_bits, !Z.lor_spec, wrap8_bits by lia.
  destruct (i <? 8); reflexivity.
Qed.

Lemma CLEAR_BIT_wrap8 (byte n : Z) :
  0 <= n < 8 -> CLEAR_BIT byte n = CLEAR_BIT (wrap8 byte) n.
Proof.
  intros Hn. apply Z.bits_inj'. intros i Hi.
  unfold CLEAR_BIT. rewrite !wrap8_bits, !Z.land_spec, !wrap8_bits by lia.
  destruct (i <? 8); reflexivity.
Qed.

(** The three chains of [init_adc], on a byte. *)
Lemma ADMUX_chain (a : Z) :
  0 <= a < 256 ->
  SET_BIT (SET_BIT (CLEAR_BIT (CLEAR_BIT (CLEAR_BIT
    (CLEAR_BIT (SET_BIT a REFS1) REFS0) MUX4) MUX3) MUX2) MUX1) MUX0
  = Z.lor (Z.land a 0x20) 0x83.
Proof.
  intros H. apply Z.eqb_eq.
  apply (forall_segment
    (fun a => SET_BIT (SET_BIT (CLEAR_BIT (CLEAR_BIT (CLEAR_BIT
                (CLEAR_BIT (SET_BIT a REFS1) REFS0) MUX4) MUX3) MUX2)
                MUX1) MUX0
              =? Z.lor (Z.land a 0x20) 0x83) 0 256);
    [vm_compute; reflexivity | lia].
Qed.

Lemma ADCSRA_chain (a : Z) :
  0 <= a < 256 ->
  SET_BIT (SET_BIT (SET_BIT (SET_BIT
    (CLEAR_BIT (SET_BIT (SET_BIT a ADPS2) ADPS1) ADPS0)
    ADEN) ADIE) ADATE) ADSC
  = Z.lor (Z.land a 0x10) 0xEE.
Proof.
  intros H. apply Z.eqb_eq.
  apply (forall_segment
    (fun a => SET_BIT (SET_BIT (SET_BIT (SET_BIT
                (CLEAR_BIT (SET_BIT (SET_BIT a ADPS2) ADPS1) ADPS0)
                ADEN) ADIE) ADATE) ADSC
              =? Z.lor (Z.land a 0x10) 0xEE) 0 256);
    [vm_compute; reflexivity | lia].
Qed.

Lemma ADCSRB_chain (a : Z) :
  0 <= a < 256 ->
  CLEAR_BIT (CLEAR_BIT (CLEAR_BIT a ADTS2) ADTS1) ADTS0 = Z.land a 0xF8.
Proof.
  intros H. apply Z.eqb_eq.
  apply (forall_segment
    (fun a => CLEAR_BIT (CLEAR_BIT (CLEAR_BIT a ADTS2) ADTS1) ADTS0
              =? Z.land a 0xF8) 0 256);
    [vm_compute; reflexivity | lia].
Qed.

Lemma init_adc_closed (r : adc_regs) :
  init_adc r =
  mk_adc_regs (Z.lor (Z.land (wrap8 (ADMUX r)) 0x20) 0x83)
              (Z.lor (Z.land (wrap8 (ADCSRA r)) 0x10) 0xEE)
              (Z.land (wrap8 (ADCSRB r)) 0xF8).
Proof.
  destruct r as [a b c].
  cbv beta iota zeta delta
    [init_adc on_ADMUX on_ADCSRA on_ADCSRB ADMUX ADCSRA ADCSRB].
  rewrite (SET_BIT_wrap8 a REFS1) by (unfold REFS1; lia).
  rewrite (SET_BIT_wrap8 b ADPS2) by (unfold ADPS2; lia).
  rewrite (CLEAR_BIT_wrap8 c ADTS2) by (unfold ADTS2; lia).
  rewrite (ADMUX_chain (wrap8 a)) by apply wrap8_range.
  rewrite (ADCSRA_chain (wrap8 b)) by apply wrap8_range.
  rewrite (ADCSRB_chain (wrap8 c)) by apply wrap8_range.
  reflexivity.
Qed.

Lemma ADMUX_facts (a : Z) :
  0 <= a < 256 ->
  let m := Z.lor (Z.land a 0x20) 0x83 in
  (Z.testbit m REFS1 && negb (Z.testbit m REFS0) && (m mod 32 =? 3)
   && Bool.eqb (Z.testbit m 5) (Z.testbit a 5) && (0 <=? m) && (m <? 256)
   && (Z.lor (Z.land m 0x20) 0x83 =? m)) = true.
Proof.
  intros H.
  apply (forall_segment
    (fun a => let m := Z.lor (Z.land a 0x20) 0x83 in
       Z.testbit m REFS1 && negb (Z.testbit m REFS0) && (m mod 32 =? 3)
       && Bool.eqb (Z.testbit m 5) (Z.testbit a 5) && (0 <=? m)
       && (m <? 256) && (Z.lor (Z.land m 0x20) 0x83 =? m)) 0 256);
    [vm_compute; reflexivity | lia].
Qed.

Lemma ADCSRA_facts (a : Z) :
  0 <= a < 256 ->
  let m := Z.lor (Z.land a 0x10) 0xEE in
  (Z.testbit m ADEN && Z.testbit m ADSC && Z.testbit m ADATE
   && Z.testbit m ADIE && (m mod 8 =? 6)
   && Bool.eqb (Z.testbit m 4) (Z.testbit a 4) && (0 <=? m) && (m <? 256)
   && (Z.lor (Z.land m 0x10) 0xEE =? m)) = true.
Proof.
  intros H.
  apply (forall_segment
    (fun a => let m := Z.lor (Z.land a 0x10) 0xEE in
       Z.testbit m ADEN && Z.testbit m ADSC && Z.testbit m ADATE
       && Z.testbit m ADIE && (m mod 8 =? 6)
       && Bool.eqb (Z.testbit m 4) (Z.testbit a 4) && (0 <=? m)
       && (m <? 256) && (Z.lor (Z.land m 0x10) 0xEE =? m)) 0 256);
    [vm_compute; reflexivity | lia].
Qed.

Lemma ADCSRB_facts (a : Z) :
  0 <= a < 256 ->
  let m := Z.land a 0xF8 in
  ((m mod 8 =? 0) && (m / 8 =? a / 8) && (0 <=? m) && (m <? 256)
   && (Z.land m 0xF8 =? m)) = true.
Proof.
  intros H.
  apply (forall_segment
    (fun a => let m := Z.land a 0xF8 in
       (m mod 8 =? 0) && (m / 8 =? a / 8) && (0 <=? m) && (m <? 256)
       && (Z.land m 0xF8 =? m)) 0 256);
    [vm_compute; reflexivity | lia].
Qed.

Ltac split_andb H :=
  repeat match type of H with
  | (_ && _) = true =>
      let H1 := fresh "F" in
      apply andb_true_iff in H; destruct H as [H H1]
  end.

(** X3: whatever the three registers hold, [init_adc] leaves in [ADMUX]
    the reference bits 10 (1.1 V) and the channel 00011 (ADC3) and keeps
    bit 5 (ADLAR) as it was; in [ADCSRA] it leaves ADEN, ADSC, ADATE and
    ADIE set and the prescaler bits 110 (division by 64) and keeps bit 4;
    in [ADCSRB] it clears the three trigger-source bits (free running) and
    keeps the five bits above them. *)
Theorem X3_init_adc_configuration (r : adc_regs) :
  let r' := init_adc r in
  (ADMUX r' = Z.lor (Z.land (wrap8 (ADMUX r)) 0x20) 0x83 /\
   Z.testbit (ADMUX r') REFS1 = true /\
   Z.testbit (ADMUX r') REFS0 = false /\
   ADMUX r' mod 32 = 3 /\
   Z.testbit (ADMUX r') 5 = Z.testbit (ADMUX r) 5) /\
  (ADCSRA r' = Z.lor (Z.land (wrap8 (ADCSRA r)) 0x10) 0xEE /\
   Z.testbit (ADCSRA r') ADEN = true /\
   Z.testbit (ADCSRA r') ADSC = true /\
   Z.testbit (ADCSRA r') ADATE = true /\
   Z.testbit (ADCSRA r') ADIE = true /\
   ADCSRA r' mod 8 = 6 /\
   Z.testbit (ADCSRA r') 4 = Z.testbit (ADCSRA r) 4) /\
  (ADCSRB r' = Z.land (wrap8 (ADCSRB r)) 0xF8 /\
   ADCSRB r' mod 8 = 0 /\
   ADCSRB r' / 8 = wrap8 (ADCSRB r) / 8).
Proof.
  cbv zeta. rewrite init_adc_closed. cbn [ADMUX ADCSRA ADCSRB].
  pose proof (ADMUX_facts (wrap8 (ADMUX r)) (wrap8_range _)) as HA.
  pose proof (ADCSRA_facts (wrap8 (ADCSRA r)) (wrap8_range _)) as HB.
  pose proof (ADCSRB_facts (wrap8 (ADCSRB r)) (wrap8_range _)) as HC.
  cbv zeta in HA, HB, HC. split_andb HA. split_andb HB. split_andb HC.
  split; [|split].
  - split; [reflexivity|]. split; [exact HA|].
    split; [apply negb_true_iff; assumption|].
    split; [apply Z.eqb_eq; assumption|].
    match goal with H : Bool.eqb _ _ = true |- _ =>
      apply Bool.eqb_prop in H; rewrite H end.
    rewrite wrap8_bits by lia. reflexivity.
  - split; [reflexivity|]. split; [exact HB|].
    repeat (split; [assumption|]).
    split; [apply Z.eqb_eq; assumption|].
    match goal with H : Bool.eqb _ _ = true |- _ =>
      apply Bool.eqb_prop in H; rewrite H end.
    rewrite wrap8_bits by lia. reflexivity.
  - split; [reflexivity|].
    split; apply Z.eqb_eq; assumption.
Qed.

Lemma init_adc_twice (r : adc_regs) :
  init_adc (init_adc r) = init_adc r.
Proof.
  rewrite (init_adc_closed (init_adc r)), (init_adc_closed r).
  cbn [ADMUX ADCSRA ADCSRB].
  pose proof (ADMUX_facts (wrap8 (ADMUX r)) (wrap8_range _)) as HA.
  pose proof (ADCSRA_facts (wrap8 (ADCSRA r)) (wrap8_range _)) as HB.
  pose proof (ADCSRB_facts (wrap8 (ADCSRB r)) (wrap8_range _)) as HC.
  cbv zeta in HA, HB, HC. split_andb HA. split_andb HB. split_andb HC.
  repeat match goal with
  | H : (_ =? _) = true |- _ => apply Z.eqb_eq in H
  | H : (_ <=? _) = true |- _ => apply Z.leb_le in H
  | H : (_ <? _) = true |- _ => apply Z.ltb_lt in H
  end.
  rewrite (wrap8_small (Z.lor (Z.land (wrap8 (ADMUX r)) 0x20) 0x83)) by lia.
  rewrite (wrap8_small (Z.lor (Z.land (wrap8 (ADCSRA r)) 0x10) 0xEE)) by lia.
  rewrite (wrap8_small (Z.land (wrap8 (ADCSRB r)) 0xF8)) by lia.
  f_equal; assumption.
Qed.

(** X4: a second run of [init_adc] changes nothing: the configuration is
    the same after one call and after two. *)
Theorem X4_init_adc_idempotent (r : adc_regs) :
  init_adc (init_adc r) = init_adc r.
Proof. apply init_adc_twice. Qed.


(** What [init_adc] leaves in the three registers, whatever they held. *)
Lemma init_adc_settings (r : adc_regs) :
  (ADMUX (init_adc r) = Z.lor (Z.land (wrap8 (ADMUX r)) 0x20) 0x83 /\
   ADCSRA (init_adc r) = Z.lor (Z.land (wrap8 (ADCSRA r)) 0x10) 0xEE /\
   ADCSRB (init_adc r) = Z.land (wrap8 (ADCSRB r)) 0xF8) /\
  (Z.testbit (ADMUX (init_adc r)) REFS1 = true /\
   Z.testbit (ADMUX (init_adc r)) REFS0 = false /\
   ADMUX (init_adc r) mod 32 = 3) /\
  (Z.testbit (ADCSRA (init_adc r)) ADEN = true /\
   Z.testbit (ADCSRA (init_adc r)) ADSC = true /\
   Z.testbit (ADCSRA (init_adc r)) ADATE = true /\
   Z.testbit (ADCSRA (init_adc r)) ADIE = true /\
   ADCSRA (init_adc r) mod 8 = 6) /\
  ADCSRB (init_adc r) mod 8 = 0.
Proof.
  rewrite init_adc_closed. cbn [ADMUX ADCSRA ADCSRB].
  pose proof (ADMUX_facts (wrap8 (ADMUX r)) (wrap8_range _)) as HA.
  pose proof (ADCSRA_facts (wrap8 (ADCSRA r)) (wrap8_range _)) as HB.
  pose proof (ADCSRB_facts (wrap8 (ADCSRB r)) (wrap8_range _)) as HC.
  cbv zeta in HA, HB, HC. split_andb HA. split_andb HB. split_andb HC.
  split; [repeat split|]. split; [|split].
  - split; [exact HA|].
    split; [apply negb_true_iff; assumption | apply Z.eqb_eq; assumption].
  - split; [exact HB|]. repeat (split; [assumption|]).
    apply Z.eqb_eq; assumption.
  - apply Z.eqb_eq; assumption.
Qed.

End Registers.

(** ** The initialisation entry point *)

Module Init.
Import CInt CDouble BatMon.

Section WithKernel.

Variable xTaskCreate : world -> Z -> Z * option TaskHandle_t.

Lemma init_unfold (prio : Z) (slot : TaskHandle_t) (w : world) :
  xt_init_battery_monitor xTaskCreate prio slot w =
  let w1 := record (A_task_create prio (create_status xTaskCreate prio w)) (configured w) in
  if create_status xTaskCreate prio w =? pdPASS
  then (0, created_handle xTaskCreate prio slot w,
        set_task_handle (created_handle xTaskCreate prio slot w) w1)
  else (1, created_handle xTaskCreate prio slot w, w1).
Proof.
  unfold xt_init_battery_monitor, create_status, created_handle, configured.
  destruct (xTaskCreate _ prio) as [status created]. cbn [fst snd].
  destruct (status =? pdPASS); reflexivity.
Qed.

(** C8: [xt_init_battery_monitor] configures the ADC first (reference
    1.1 V, channel ADC3, prescaler 64, free running, the ADC enabled and
    started with its interrupt and auto trigger: the registers hold these
    settings when [xTaskCreate] is called and when the function returns)
    and then calls [xTaskCreate] at the given priority; it returns 0 if and
    only if [xTaskCreate] returned [pdPASS] and the non-zero code 1 exactly
    when it did not; on success [_task_handle] holds the handle of the
    created task. *)
Theorem C8_init_result (prio : Z) (slot : TaskHandle_t) (w : world) :
  let status := create_status xTaskCreate prio w in
  let '(rc, slot', w') := xt_init_battery_monitor xTaskCreate prio slot w in
  regs w' = init_adc (regs w) /\
  regs (configured w) = init_adc (regs w) /\
  (ADMUX (regs w') = Z.lor (Z.land (wrap8 (ADMUX (regs w))) 0x20) 0x83 /\
   ADCSRA (regs w') = Z.lor (Z.land (wrap8 (ADCSRA (regs w))) 0x10) 0xEE /\
   ADCSRB (regs w') = Z.land (wrap8 (ADCSRB (regs w))) 0xF8) /\
  (Z.testbit (ADMUX (regs w')) REFS1 = true /\
   Z.testbit (ADMUX (regs w')) REFS0 = false /\
   ADMUX (regs w') mod 32 = 3) /\
  (Z.testbit (ADCSRA (regs w')) ADEN = true /\
   Z.testbit (ADCSRA (regs w')) ADSC = true /\
   Z.testbit (ADCSRA (regs w')) ADATE = true /\
   Z.testbit (ADCSRA (regs w')) ADIE = true /\
   ADCSRA (regs w') mod 8 = 6) /\
  ADCSRB (regs w') mod 8 = 0 /\
  regs (configured w) = regs w' /\
  trace w' = trace w ++ [A_init_adc; A_task_create prio status] /\
  (rc = 0 <-> status = pdPASS) /\
  (rc = 1 <-> status <> pdPASS) /\
  (status = pdPASS ->
   _task_handle w' = slot' /\
   slot' = created_handle xTaskCreate prio slot w).
Proof.
  cbv zeta. rewrite init_unfold. cbv zeta.
  pose proof (Registers.init_adc_settings (regs w)) as (S1 & S2 & S3 & S4).
  destruct (create_status xTaskCreate prio w =? pdPASS) eqn:E.
  - apply Z.eqb_eq in E. unfold trace.
    cbn [regs log _task_handle set_task_handle record configured set_regs
         rev].
    rewrite <- app_assoc. cbn [app].
    split; [reflexivity|]. split; [reflexivity|].
    split; [exact S1|]. split; [exact S2|]. split; [exact S3|].
    split; [exact S4|]. split; [reflexivity|]. split; [reflexivity|].
    split; [split; intros; [assumption | reflexivity]|].
    split; [split; intros; [discriminate | contradiction]|].
    intros _. split; reflexivity.
  - apply Z.eqb_neq in E. unfold trace.
    cbn [regs log _task_handle set_task_handle record configured set_regs
         rev].
    rewrite <- app_assoc. cbn [app].
    split; [reflexivity|]. split; [reflexivity|].
    split; [exact S1|]. split; [exact S2|]. split; [exact S3|].
    split; [exact S4|]. split; [reflexivity|]. split; [reflexivity|].
    split; [split; intros; [discriminate | contradiction]|].
    split; [split; intros; [assumption | reflexivity]|].
    intros H. contradiction.
Qed.

(** C10: when [xTaskCreate] does not return [pdPASS], the call leaves
    [_task_handle] as it was. *)
Theorem C10_init_failure_keeps_handle (prio : Z) (slot : TaskHandle_t)
    (w : world) :
  create_status xTaskCreate prio w <> pdPASS ->
  let '(rc, _, w') := xt_init_battery_monitor xTaskCreate prio slot w in
  rc = 1 /\ _task_handle w' = _task_handle w.
Proof.
  intros H. rewrite init_unfold. cbv zeta.
  apply Z.eqb_neq in H. rewrite H. split; reflexivity.
Qed.

End WithKernel.

(** On an out-of-memory answer of the kernel the handle stored by an
    earlier, successful call is still there. *)
Lemma C10_init_failure_keeps_handle_witness :
  let w := set_task_handle 4242 (world0 (mk_adc_regs 0 0 0) 0) in
  let kernel := fun (_ : world) (_ : Z) => (-1, @None TaskHandle_t) in
  create_status kernel 3 w <> pdPASS /\
  _task_handle (snd (xt_init_battery_monitor kernel 3 0 w)) = 4242.
Proof.
  cbv zeta. split.
  - unfold create_status, pdPASS. cbn. lia.
  - exact (proj2 (C10_init_failure_keeps_handle
             (fun _ _ => (-1, None)) 3 0
             (set_task_handle 4242 (world0 (mk_adc_regs 0 0 0) 0))
             ltac:(unfold create_status, pdPASS; cbn; lia))).
Defined.

End Init.

(** ** The task loop *)

Module Loop.
Import CInt CDouble BatMon.

Section WithConfig.

Variable cfg : config.

Lemma run_cons (e : event) (evs : list event) (w : world) :
  run cfg (e :: evs) w = run cfg evs (step cfg e w).
Proof. reflexivity. Qed.

Lemma run_app (evs1 evs2 : list event) (w : world) :
  run cfg (evs1 ++ evs2) w = run cfg evs2 (run cfg evs1 w).
Proof. unfold run. apply fold_left_app. Qed.

(** *** The task, place by place *)

Lemma task_init (w : world) :
  pc w = L_init ->
  batmon_task cfg w =
  Some (set_pc L_delay (set_last_wake_time (xTickCount w) w)).
Proof. intros H. unfold batmon_task. rewrite H. reflexivity. Qed.

Lemma task_delay (w : world) :
  pc w = L_delay ->
  batmon_task cfg w =
  let wake := wrapT (tw cfg) (last_wake_time w + TASK_DELAY cfg) in
  Some (set_pc
          (if should_delay (xTickCount w) (last_wake_time w) wake
           then L_delayed else L_recv)
          (set_last_wake_time wake (record (A_delay_until wake) w))).
Proof. intros H. unfold batmon_task. rewrite H. reflexivity. Qed.

Lemma task_delayed (w : world) :
  pc w = L_delayed -> batmon_task cfg w = None.
Proof. intros H. unfold batmon_task. rewrite H. reflexivity. Qed.

Lemma task_recv_empty (w : world) :
  pc w = L_recv -> battery_queue w = [] ->
  batmon_task cfg w = Some (set_pc L_send_lvl (record A_recv_empty w)).
Proof. intros H Hq. unfold batmon_task. rewrite H, Hq. reflexivity. Qed.

Lemma task_recv_ignored (w : world) (m : xm_msg_t) (q : list xm_msg_t) :
  pc w = L_recv -> battery_queue w = m :: q ->
  is_suspend_request m = false ->
  batmon_task cfg w =
  Some (set_pc L_recv (record (A_recv m) (set_battery_queue q w))).
Proof.
  intros H Hq Hm. unfold batmon_task. rewrite H, Hq. cbn [xQueueReceive].
  unfold is_suspend_request in Hm.
  destruct (type m); try reflexivity; discriminate.
Qed.

Lemma task_recv_suspend (w : world) (m : xm_msg_t) (q : list xm_msg_t) :
  pc w = L_recv -> battery_queue w = m :: q ->
  type m = XM_MSG_TASKSUSP_REQ ->
  batmon_task cfg w =
  Some (set_pc L_notify_wait (record (A_recv m) (set_battery_queue q w))).
Proof.
  intros H Hq Hm. unfold batmon_task. rewrite H, Hq. cbn [xQueueReceive].
  rewrite Hm. reflexivity.
Qed.

Lemma task_notify_wait (w : world) :
  pc w = L_notify_wait ->
  batmon_task cfg w =
  if notify_pending w
  then Some (set_pc L_recv (record A_notified (set_notify_pending false w)))
  else None.
Proof.
  intros H. unfold batmon_task. rewrite H. unfold xTaskNotifyWait.
  destruct (notify_pending w); reflexivity.
Qed.

Lemma task_send_lvl (w : world) :
  pc w = L_send_lvl ->
  batmon_task cfg w =
  match xQueueSendToBack (display_queue_len cfg) (display_queue w)
          (batlvl_msg cfg w) with
  | Some q =>
      Some (set_pc L_send_stat
              (record (A_send (batlvl_msg cfg w) true)
                 (set_display_queue q w)))
  | None =>
      Some (set_pc L_delay (record (A_send (batlvl_msg cfg w) false) w))
  end.
Proof. intros H. unfold batmon_task. rewrite H. reflexivity. Qed.

Lemma task_send_stat (w : world) :
  pc w = L_send_stat ->
  batmon_task cfg w =
  match xQueueSendToBack (display_queue_len cfg) (display_queue w)
          (batstatpin_msg cfg w) with
  | Some q =>
      Some (set_pc L_delay
              (record (A_send (batstatpin_msg cfg w) true)
                 (set_display_queue q w)))
  | None =>
      Some (set_pc L_delay (record (A_send (batstatpin_msg cfg w) false) w))
  end.
Proof. intros H. unfold batmon_task. rewrite H. reflexivity. Qed.

(** A receive with no waiting time never blocks. *)
Lemma task_recv_total (w : world) :
  pc w = L_recv -> exists w', batmon_task cfg w = Some w'.
Proof.
  intros H. unfold batmon_task. rewrite H.
  destruct (xQueueReceive (battery_queue w)) as [[m q]|]; [|eauto].
  destruct (type m); eauto.
Qed.

Lemma xQueueSendToBack_full (len : nat) (q : list xm_msg_t) (m : xm_msg_t) :
  (len <= length q)%nat -> xQueueSendToBack len q m = None.
Proof.
  intros H. unfold xQueueSendToBack.
  destruct (Nat.ltb_spec (length q) len); [lia | reflexivity].
Qed.

Lemma xQueueSendToBack_room (len : nat) (q : list xm_msg_t) (m : xm_msg_t) :
  (length q < len)%nat -> xQueueSendToBack len q m = Some (q ++ [m]).
Proof.
  intros H. unfold xQueueSendToBack.
  destruct (Nat.ltb_spec (length q) len); [reflexivity | lia].
Qed.

(** *** Draining the control queue *)

Lemma drain_frame_refl (w : world) : drain_frame w w.
Proof. unfold drain_frame. repeat split. Qed.

Lemma drain_prefix (k : nat) :
  forall (q : list xm_msg_t) (w : world),
    pc w = L_recv -> battery_queue w = q ->
    Forall (fun m => is_suspend_request m = false) q ->
    (k <= length q)%nat ->
    let wk := run cfg (repeat E_task k) w in
    pc wk = L_recv /\
    battery_queue wk = skipn k q /\
    log wk = rev (map A_recv (firstn k q)) ++ log w /\
    drain_frame w wk.
Proof.
  induction k as [|k IH]; intros q w Hpc Hq Hall Hk; cbv zeta.
  - cbn. auto using drain_frame_refl.
  - destruct q as [|m q]; [cbn in Hk; lia|].
    inversion Hall as [|? ? Hm Hall']; subst.
    cbn [repeat]. rewrite run_cons. cbn [step].
    rewrite (task_recv_ignored w m q Hpc Hq Hm).
    set (w1 := set_pc L_recv (record (A_recv m) (set_battery_queue q w))).
    destruct (IH q w1 eq_refl eq_refl Hall' ltac:(cbn in Hk; lia))
      as (H1 & H2 & H3 & H4).
    split; [exact H1|]. split; [exact H2|]. split.
    + rewrite H3. cbn [firstn map rev log w1 set_pc record].
      rewrite <- app_assoc. reflexivity.
    + exact H4.
Qed.

Lemma received_app (l1 l2 : list action) :
  received (l1 ++ l2) = received l1 ++ received l2.
Proof.
  induction l1 as [|a l1 IH]; [reflexivity|].
  destruct a; cbn [app received]; rewrite ?IH; reflexivity.
Qed.

Lemma received_rev_recvs (q : list xm_msg_t) :
  received (rev (map A_recv q)) = rev q.
Proof.
  induction q as [|m q IH]; [reflexivity|].
  cbn [map rev]. rewrite received_app, IH. reflexivity.
Qed.

Lemma run_repeat_S (n : nat) (w : world) :
  run cfg (repeat E_task (S n)) w =
  step cfg E_task (run cfg (repeat E_task n) w).
Proof.
  cbn [repeat]. rewrite repeat_cons, run_app. reflexivity.
Qed.

(** C5: on a control queue of [N] messages of ignored types, with nothing
    posted meanwhile, the drain step takes exactly the [N] messages, in
    order, changes nothing else in the system, is never blocked, and leaves
    the loop at the first receive that finds the queue empty, which is the
    [N+1]-th. *)
Theorem C5_drain_ignored (w : world) (q : list xm_msg_t) :
  pc w = L_recv -> battery_queue w = q ->
  Forall (fun m => is_suspend_request m = false) q ->
  let N := length q in
  let w' := run cfg (repeat E_task (S N)) w in
  (forall k, (k <= N)%nat ->
     pc (run cfg (repeat E_task k) w) = L_recv /\
     exists w'', batmon_task cfg (run cfg (repeat E_task k) w) = Some w'') /\
  received (log (run cfg (repeat E_task N) w)) = rev q ++ received (log w) /\
  pc w' = L_send_lvl /\
  battery_queue w' = [] /\
  log w' = A_recv_empty :: rev (map A_recv q) ++ log w /\
  drain_frame w w'.
Proof.
  intros Hpc Hq Hall. cbv zeta.
  assert (Hpre : forall k, (k <= length q)%nat ->
            pc (run cfg (repeat E_task k) w) = L_recv).
  { intros k Hk. apply (drain_prefix k q w Hpc Hq Hall Hk). }
  destruct (drain_prefix (length q) q w Hpc Hq Hall (Nat.le_refl _))
    as (H1 & H2 & H3 & H4).
  rewrite skipn_all in H2. rewrite firstn_all in H3.
  split.
  { intros k Hk. split; [apply Hpre, Hk | apply task_recv_total, Hpre, Hk]. }
  split.
  { rewrite H3, received_app, received_rev_recvs. reflexivity. }
  rewrite run_repeat_S. cbn [step].
  rewrite (task_recv_empty _ H1 H2).
  cbn [pc battery_queue log set_pc record].
  split; [reflexivity|]. split; [exact H2|].
  split; [rewrite H3; reflexivity|].
  unfold drain_frame in *. cbn. exact H4.
Qed.

(** The tick interrupt leaves the history alone and moves the task at
    most from the delay to the receive. *)
Lemma tick_pc_log (w : world) :
  log (tick cfg w) = log w /\
  (pc (tick cfg w) = pc w \/ (pc w = L_delayed /\ pc (tick cfg w) = L_recv)).
Proof.
  unfold tick. cbn [pc set_xTickCount last_wake_time].
  destruct (pc w) eqn:Hpc; try (split; [reflexivity | left; assumption]).
  destruct (_ =? _).
  - split; [reflexivity | right; split; reflexivity].
  - split; [reflexivity | left; assumption].
Qed.

(** *** Suspension *)

(** A task that waits for a notification stays where it is, takes nothing
    from the queue and does nothing, as long as no notification comes;
    what other tasks post meanwhile queues up behind. *)
Lemma blocked_run (evs : list event) :
  forall w : world,
    pc w = L_notify_wait -> notify_pending w = false ->
    forallb (fun e => negb (is_notify e)) evs = true ->
    let w' := run cfg evs w in
    pc w' = L_notify_wait /\ notify_pending w' = false /\
    log w' = log w /\
    exists posted, battery_queue w' = battery_queue w ++ posted.
Proof.
  induction evs as [|e evs IH]; intros w Hpc Hn Hevs; cbv zeta.
  - cbn. repeat split; try assumption. exists []. symmetry. apply app_nil_r.
  - cbn [forallb] in Hevs. apply andb_true_iff in Hevs.
    destruct Hevs as [He Hevs]. rewrite run_cons.
    assert (Hstep : pc (step cfg e w) = L_notify_wait /\
                    notify_pending (step cfg e w) = false /\
                    log (step cfg e w) = log w /\
                    exists p, battery_queue (step cfg e w)
                              = battery_queue w ++ p).
    { destruct e; cbn [step is_notify negb] in *; try discriminate.
      - rewrite (task_notify_wait w Hpc), Hn.
        repeat split; try assumption. exists []. symmetry. apply app_nil_r.
      - unfold tick. cbn [pc set_xTickCount]. rewrite Hpc.
        repeat split; try assumption. exists []. symmetry. apply app_nil_r.
      - unfold ISR_ADC_vect.
        repeat split; try assumption. exists []. symmetry. apply app_nil_r.
      - unfold xQueueSendToBack.
        destruct (length (battery_queue w) <? battery_queue_len cfg)%nat.
        + repeat split; try assumption. exists [m]. reflexivity.
        + repeat split; try assumption. exists []. symmetry. apply app_nil_r.
      - repeat split; try assumption. exists []. symmetry. apply app_nil_r. }
    destruct Hstep as (S1 & S2 & S3 & p & S4).
    destruct (IH (step cfg e w) S1 S2 Hevs) as (R1 & R2 & R3 & p' & R4).
    repeat split; try assumption.
    + rewrite R3. exact S3.
    + exists (p ++ p'). rewrite R4, S4. symmetry. apply app_assoc.
Qed.

(** The history only grows. *)
Lemma task_log_grows (w w' : world) :
  batmon_task cfg w = Some w' -> exists l, log w' = l ++ log w.
Proof.
  unfold batmon_task. intros H.
  destruct (pc w);
    repeat match type of H with
    | context [match ?x with _ => _ end] => destruct x
    end;
    try discriminate; injection H as <-;
    cbn [log set_pc set_last_wake_time set_battery_queue set_display_queue
         set_notify_pending record];
    first [ exists []; reflexivity | eexists [_]; reflexivity ].
Qed.

Lemma step_log_grows (e : event) (w : world) :
  exists l, log (step cfg e w) = l ++ log w.
Proof.
  destruct e; cbn [step]; try (exists []; reflexivity).
  - destruct (batmon_task cfg w) as [w'|] eqn:Ht; [|exists []; reflexivity].
    apply (task_log_grows w w' Ht).
  - exists []. unfold tick. cbn [pc set_xTickCount last_wake_time].
    destruct (pc w); try reflexivity. destruct (_ =? _); reflexivity.
  - exists []. destruct (xQueueSendToBack _ _ _); reflexivity.
Qed.

(** From the wait on, whatever happens: either the task is still at the
    wait and has done nothing, or it has taken a notification first. *)
Lemma wait_or_notified (evs : list event) :
  forall (w : world) (before : list action),
    (pc w = L_notify_wait /\ log w = before) \/
    (exists l, log w = l ++ A_notified :: before) ->
    (pc (run cfg evs w) = L_notify_wait /\ log (run cfg evs w) = before) \/
    (exists l, log (run cfg evs w) = l ++ A_notified :: before).
Proof.
  induction evs as [|e evs IH]; intros w before H; [exact H|].
  rewrite run_cons. apply IH. destruct H as [[Hpc Hlog] | [l Hl]].
  - destruct e; cbn [step]; auto.
    + rewrite (task_notify_wait w Hpc). destruct (notify_pending w); auto.
      right. exists []. cbn. rewrite Hlog. reflexivity.
    + left. destruct (tick_pc_log w) as (E1 & E2). rewrite E1.
      split; [|exact Hlog].
      destruct E2 as [-> | [Hd _]]; [exact Hpc | congruence].
    + destruct (xQueueSendToBack _ _ _); auto.
  - right. destruct (step_log_grows e w) as [l' Hl'].
    exists (l' ++ l). rewrite Hl', Hl. apply app_assoc.
Qed.

(** C6: when the drain step receives a suspend request the task goes to
    wait for a notification inside the drain loop.  From then on it takes
    no further message from the queue before it has taken a notification.
    With no notification pending it is blocked and stays at the wait
    whatever else happens, and the messages behind the suspend request and
    those posted during the suspension stay queued in order; once notified
    it goes back to the receive of the drain loop, and its next receive
    takes the message that followed the suspend request.  With a
    notification already pending the wait takes it at once and the task
    goes on draining without being blocked. *)
Theorem C6_suspend_blocks_in_drain (w : world) (m : xm_msg_t)
    (rest : list xm_msg_t) (evs : list event) :
  pc w = L_recv -> battery_queue w = m :: rest ->
  type m = XM_MSG_TASKSUSP_REQ ->
  let w1 := step cfg E_task w in
  let w2 := run cfg evs w1 in
  let w3 := step cfg E_task (step cfg E_notify w2) in
  (pc w1 = L_notify_wait /\ battery_queue w1 = rest /\
   log w1 = A_recv m :: log w) /\
  ((pc w2 = L_notify_wait /\ log w2 = log w1) \/
   (exists l, log w2 = l ++ A_notified :: log w1)) /\
  (notify_pending w = false ->
   forallb (fun e => negb (is_notify e)) evs = true ->
   (batmon_task cfg w2 = None /\ pc w2 = L_notify_wait /\
    log w2 = log w1 /\ received (log w2) = m :: received (log w) /\
    exists posted, battery_queue w2 = rest ++ posted) /\
   (pc w3 = L_recv /\ battery_queue w3 = battery_queue w2 /\
    log w3 = A_notified :: log w2) /\
   (forall m' q', battery_queue w2 = m' :: q' ->
      received (log (step cfg E_task w3)) = m' :: m :: received (log w) /\
      battery_queue (step cfg E_task w3) = q')) /\
  (notify_pending w = true ->
   pc (step cfg E_task w1) = L_recv /\
   notify_pending (step cfg E_task w1) = false /\
   battery_queue (step cfg E_task w1) = rest /\
   log (step cfg E_task w1) = A_notified :: log w1).
Proof.
  intros Hpc Hq Hm. cbv zeta.
  assert (E1 : step cfg E_task w =
               set_pc L_notify_wait
                 (record (A_recv m) (set_battery_queue rest w))).
  { cbn [step]. rewrite (task_recv_suspend w m rest Hpc Hq Hm). reflexivity. }
  rewrite E1.
  set (w1 := set_pc L_notify_wait
               (record (A_recv m) (set_battery_queue rest w))).
  split; [repeat split|].
  split; [apply wait_or_notified; left; split; reflexivity|].
  split;
    [|intros Hp; cbn [step]; rewrite (task_notify_wait w1 eq_refl);
      change (notify_pending w1) with (notify_pending w); rewrite Hp;
      repeat split].
  intros Hn Hevs.
  destruct (blocked_run evs w1 eq_refl Hn Hevs) as (B1 & B2 & B3 & p & B4).
  set (w2 := run cfg evs w1) in *.
  assert (E3 : step cfg E_task (step cfg E_notify w2) =
               set_pc L_recv
                 (record A_notified
                    (set_notify_pending false (set_notify_pending true w2)))).
  { cbn [step]. rewrite task_notify_wait by exact B1. reflexivity. }
  rewrite E3.
  split; [|split].
  - split; [rewrite (task_notify_wait w2 B1), B2; reflexivity|].
    split; [exact B1|]. split; [exact B3|].
    split; [rewrite B3; reflexivity|]. exists p. exact B4.
  - repeat split.
  - intros m' q' Hq2.
    set (w3 := set_pc L_recv
                 (record A_notified
                    (set_notify_pending false (set_notify_pending true w2)))).
    assert (Hpc3 : pc w3 = L_recv) by reflexivity.
    assert (Hq3 : battery_queue w3 = m' :: q') by exact Hq2.
    cbn [step].
    destruct (is_suspend_request m') eqn:Hs.
    + assert (Hm' : type m' = XM_MSG_TASKSUSP_REQ).
      { unfold is_suspend_request in Hs. destruct (type m'); congruence. }
      rewrite (task_recv_suspend w3 m' q' Hpc3 Hq3 Hm').
      cbn. rewrite B3. split; reflexivity.
    + rewrite (task_recv_ignored w3 m' q' Hpc3 Hq3 Hs).
      cbn. rewrite B3. split; reflexivity.
Qed.

(** *** The sends of a tick *)

Lemma ticks_nil (l : list action) : ticks l = [] -> l = [].
Proof.
  destruct l as [|a l]; [reflexivity|]. cbn [ticks].
  destruct a; try discriminate; destruct (ticks l); discriminate.
Qed.

(** The tick in progress is the first of [ticks]. *)
Lemma sends_of_latest_tick (l : list action) :
  sends_of_tick (hd [] (ticks l)) = sends_of_tick l.
Proof.
  induction l as [|a l IH]; [reflexivity|].
  cbn [ticks].
  destruct a; try reflexivity;
    (destruct (ticks l) as [|t ts] eqn:E;
     [ apply ticks_nil in E; subst l; reflexivity
     | cbn [hd] in *; cbn [sends_of_tick]; rewrite IH; reflexivity ]).
Qed.

Lemma ticks_ok_delay (t : Z) (l : list action) :
  ticks_ok l -> ticks_ok (A_delay_until t :: l).
Proof.
  unfold ticks_ok. intros H. cbn [ticks]. constructor; [|exact H].
  left. reflexivity.
Qed.

(** An action that is not a call of [vTaskDelayUntil] joins the tick in
    progress. *)
Lemma ticks_ok_join (a : action) (l : list action) :
  (forall t, a <> A_delay_until t) ->
  ticks_ok l ->
  tick_sends_ok (rev (sends_of_tick (a :: l))) ->
  ticks_ok (a :: l).
Proof.
  unfold ticks_ok. intros Ha Hl Hs.
  assert (E : ticks (a :: l) =
              match ticks l with
              | [] => [[a]]
              | t :: ts => (a :: t) :: ts
              end).
  { destruct a; try reflexivity. exfalso. apply (Ha wake). reflexivity. }
  rewrite E. pose proof (sends_of_latest_tick l) as Hhd.
  destruct (ticks l) as [|t ts] eqn:Et.
  - apply ticks_nil in Et. subst l. constructor; [exact Hs | constructor].
  - cbn [hd] in Hhd. inversion Hl as [|? ? _ Hts]; subst.
    constructor; [|exact Hts].
    destruct a; cbn [sends_of_tick] in *; rewrite ?Hhd; exact Hs.
Qed.

(** A silent action leaves the sends of the tick as they are. *)
Lemma ticks_ok_silent (a : action) (l : list action) :
  (forall t, a <> A_delay_until t) ->
  (forall m ok, a <> A_send m ok) ->
  ticks_ok l ->
  tick_sends_ok (rev (sends_of_tick l)) ->
  ticks_ok (a :: l) /\ sends_of_tick (a :: l) = sends_of_tick l.
Proof.
  intros Ha Hs Hl Hok.
  assert (E : sends_of_tick (a :: l) = sends_of_tick l).
  { destruct a; try reflexivity.
    - exfalso. apply (Ha wake). reflexivity.
    - exfalso. apply (Hs m ok). reflexivity. }
  split; [|exact E]. apply ticks_ok_join; try assumption.
  rewrite E. exact Hok.
Qed.

Lemma sends_at_ok (l : loc) (s : list (xm_msg_type_t * bool)) :
  l <> L_init -> l <> L_delay -> sends_at l s -> tick_sends_ok (rev s).
Proof.
  intros H1 H2. destruct l; cbn [sends_at]; try contradiction;
    intros ->; cbn [rev app]; unfold tick_sends_ok; auto.
Qed.

Lemma task_tick_inv (w w' : world) :
  tick_inv w -> batmon_task cfg w = Some w' -> tick_inv w'.
Proof.
  unfold tick_inv. intros [Hl Hs] Ht.
  destruct (pc w) eqn:Hpc.
  - rewrite (task_init w Hpc) in Ht. injection Ht as <-.
    cbn. split; [exact Hl | exact I].
  - rewrite (task_delay w Hpc) in Ht. cbv zeta in Ht. injection Ht as <-.
    cbn [log pc set_pc set_last_wake_time record].
    split; [apply ticks_ok_delay, Hl|].
    destruct (should_delay _ _ _); reflexivity.
  - rewrite (task_delayed w Hpc) in Ht. discriminate.
  - assert (Hok : tick_sends_ok (rev (sends_of_tick (log w))))
      by (apply (sends_at_ok L_recv); [discriminate | discriminate | exact Hs]).
    cbn [sends_at] in Hs.
    unfold batmon_task in Ht. rewrite Hpc in Ht.
    destruct (xQueueReceive (battery_queue w)) as [[m q]|].
    + assert (Hj : ticks_ok (A_recv m :: log w) /\
                   sends_of_tick (A_recv m :: log w) = sends_of_tick (log w))
        by (apply ticks_ok_silent; try assumption; discriminate).
      destruct Hj as [Hj1 Hj2].
      destruct (type m); injection Ht as <-;
        cbn [log pc set_pc set_battery_queue record sends_at];
        (split; [exact Hj1 | rewrite Hj2; exact Hs]).
    + injection Ht as <-.
      assert (Hj : ticks_ok (A_recv_empty :: log w) /\
                   sends_of_tick (A_recv_empty :: log w)
                   = sends_of_tick (log w))
        by (apply ticks_ok_silent; try assumption; discriminate).
      destruct Hj as [Hj1 Hj2].
      cbn [log pc set_pc record sends_at].
      split; [exact Hj1 | rewrite Hj2; exact Hs].
  - assert (Hok : tick_sends_ok (rev (sends_of_tick (log w))))
      by (apply (sends_at_ok L_notify_wait);
          [discriminate | discriminate | exact Hs]).
    cbn [sends_at] in Hs.
    rewrite (task_notify_wait w Hpc) in Ht.
    destruct (notify_pending w); [|discriminate]. injection Ht as <-.
    assert (Hj : ticks_ok (A_notified :: log w) /\
                 sends_of_tick (A_notified :: log w) = sends_of_tick (log w))
      by (apply ticks_ok_silent; try assumption; discriminate).
    destruct Hj as [Hj1 Hj2].
    cbn [log pc set_pc set_notify_pending record sends_at].
    split; [exact Hj1 | rewrite Hj2; exact Hs].
  - cbn [sends_at] in Hs.
    rewrite (task_send_lvl w Hpc) in Ht.
    destruct (xQueueSendToBack _ _ _); injection Ht as <-;
      cbn [log pc set_pc set_display_queue record sends_at].
    + split.
      * apply ticks_ok_join; [discriminate | exact Hl |].
        cbn [sends_of_tick type batlvl_msg]. rewrite Hs.
        right. right. left. reflexivity.
      * cbn [sends_of_tick type batlvl_msg]. rewrite Hs. reflexivity.
    + split; [|exact I].
      apply ticks_ok_join; [discriminate | exact Hl |].
      cbn [sends_of_tick type batlvl_msg]. rewrite Hs.
      right. left. reflexivity.
  - cbn [sends_at] in Hs.
    rewrite (task_send_stat w Hpc) in Ht.
    destruct (xQueueSendToBack _ _ _); injection Ht as <-;
      cbn [log pc set_pc set_display_queue record sends_at];
      (split; [|exact I]);
      (apply ticks_ok_join; [discriminate | exact Hl |]);
      cbn [sends_of_tick type batstatpin_msg]; rewrite Hs;
      right; right; right; eexists; reflexivity.
Qed.

Lemma step_tick_inv (e : event) (w : world) :
  tick_inv w -> tick_inv (step cfg e w).
Proof.
  intros H. destruct e; cbn [step].
  - destruct (batmon_task cfg w) as [w'|] eqn:Ht; [|exact H].
    apply (task_tick_inv w w' H Ht).
  - destruct (tick_pc_log w) as (Hlog & Hpc). unfold tick_inv in *.
    rewrite Hlog. destruct Hpc as [-> | [Hd ->]]; [exact H|].
    rewrite Hd in H. exact H.
  - exact H.
  - destruct (xQueueSendToBack _ _ _); exact H.
  - exact H.
  - exact H.
Qed.

Lemma run_tick_inv (evs : list event) (w : world) :
  tick_inv w -> tick_inv (run cfg evs w).
Proof.
  revert w. induction evs as [|e evs IH]; intros w H; [exact H|].
  rewrite run_cons. apply IH, step_tick_inv, H.
Qed.

Lemma world0_tick_inv (r : adc_regs) (now : Z) : tick_inv (world0 r now).
Proof. split; [constructor | exact I]. Qed.

(** C4: in every tick of every run the task attempts at most two sends,
    the battery level first and the status pin second, and the status pin
    only after the battery level was accepted; a refused battery-level send
    takes the task straight to the wait for the next wake, with no second
    attempt and no status-pin send, and so does the status-pin send,
    accepted or not. *)
Theorem C4_sends_per_tick :
  (forall evs r now, ticks_ok (log (run cfg evs (world0 r now)))) /\
  (forall w, pc w = L_send_lvl ->
     (display_queue_len cfg <= length (display_queue w))%nat ->
     step cfg E_task w =
     set_pc L_delay (record (A_send (batlvl_msg cfg w) false) w)) /\
  (forall w, pc w = L_send_lvl ->
     (length (display_queue w) < display_queue_len cfg)%nat ->
     step cfg E_task w =
     set_pc L_send_stat
       (record (A_send (batlvl_msg cfg w) true)
          (set_display_queue (display_queue w ++ [batlvl_msg cfg w]) w))) /\
  (forall w, pc w = L_send_stat ->
     pc (step cfg E_task w) = L_delay /\
     exists ok,
       log (step cfg E_task w) = A_send (batstatpin_msg cfg w) ok :: log w) /\
  (forall w, pc w = L_delay ->
     exists t, log (step cfg E_task w) = A_delay_until t :: log w).
Proof.
  split; [|split; [|split; [|split]]].
  - intros evs r now. apply run_tick_inv, world0_tick_inv.
  - intros w Hpc Hfull. cbn [step]. rewrite (task_send_lvl w Hpc).
    rewrite xQueueSendToBack_full by exact Hfull. reflexivity.
  - intros w Hpc Hroom. cbn [step]. rewrite (task_send_lvl w Hpc).
    rewrite xQueueSendToBack_room by exact Hroom. reflexivity.
  - intros w Hpc. cbn [step]. rewrite (task_send_stat w Hpc).
    destruct (xQueueSendToBack _ _ _); cbn [pc log set_pc record];
      (split; [reflexivity | eexists; reflexivity]).
  - intros w Hpc. cbn [step]. rewrite (task_delay w Hpc). cbv zeta.
    cbn [log set_pc set_last_wake_time record]. eexists. reflexivity.
Qed.

(** *** Wake times *)

Lemma wrapT_add_l (a b : Z) :
  wrapT (tw cfg) (wrapT (tw cfg) a + b) = wrapT (tw cfg) (a + b).
Proof. unfold wrapT. apply Zplus_mod_idemp_l. Qed.

(** The wake time after the [k]-th is the [k+1]-th. *)
Lemma wake_after_next (start : Z) (k : nat) :
  wrapT (tw cfg) (wake_after cfg start k + TASK_DELAY cfg)
  = scheduled_wake cfg start (S k).
Proof.
  unfold wake_after, scheduled_wake. destruct k as [|k].
  - f_equal. lia.
  - rewrite wrapT_add_l. f_equal. lia.
Qed.

Lemma task_wake_inv (start : Z) (w w' : world) :
  wake_inv cfg start w -> batmon_task cfg w = Some w' ->
  wake_inv cfg start w'.
Proof.
  unfold wake_inv. intros (Hpc & Hlast & Hlist) Ht.
  destruct (pc w) eqn:E; [contradiction | | | | | |].
  - rewrite (task_delay w E) in Ht. cbv zeta in Ht. injection Ht as <-.
    cbn [pc log last_wake_time set_pc set_last_wake_time record
         wake_times length].
    rewrite Hlast, wake_after_next.
    split; [destruct (should_delay _ _ _); discriminate|].
    split; [reflexivity|].
    cbn [rev]. rewrite Hlist, seq_S, map_app. reflexivity.
  - rewrite (task_delayed w E) in Ht. discriminate.
  - unfold batmon_task in Ht. rewrite E in Ht.
    destruct (xQueueReceive (battery_queue w)) as [[m q]|].
    + destruct (type m); injection Ht as <-; cbn;
        (split; [discriminate | split; assumption]).
    + injection Ht as <-. cbn. split; [discriminate | split; assumption].
  - rewrite (task_notify_wait w E) in Ht.
    destruct (notify_pending w); [|discriminate]. injection Ht as <-.
    cbn. split; [discriminate | split; assumption].
  - rewrite (task_send_lvl w E) in Ht.
    destruct (xQueueSendToBack _ _ _); injection Ht as <-; cbn;
      (split; [discriminate | split; assumption]).
  - rewrite (task_send_stat w E) in Ht.
    destruct (xQueueSendToBack _ _ _); injection Ht as <-; cbn;
      (split; [discriminate | split; assumption]).
Qed.

Lemma step_wake_inv (start : Z) (e : event) (w : world) :
  wake_inv cfg start w -> wake_inv cfg start (step cfg e w).
Proof.
  intros H. destruct e; cbn [step].
  - destruct (batmon_task cfg w) as [w'|] eqn:Ht; [|exact H].
    apply (task_wake_inv start w w' H Ht).
  - destruct (tick_pc_log w) as (Hlog & Hpc). unfold wake_inv in *.
    rewrite Hlog.
    assert (Hlw : last_wake_time (tick cfg w) = last_wake_time w).
    { unfold tick. cbn [pc set_xTickCount last_wake_time].
      destruct (pc w); try reflexivity. destruct (_ =? _); reflexivity. }
    rewrite Hlw. split; [|apply H].
    destruct Hpc as [-> | [_ ->]]; [apply H | discriminate].
  - exact H.
  - destruct (xQueueSendToBack _ _ _); exact H.
  - exact H.
  - exact H.
Qed.

Lemma run_wake_inv (start : Z) (evs : list event) (w : world) :
  wake_inv cfg start w -> wake_inv cfg start (run cfg evs w).
Proof.
  revert w. induction evs as [|e evs IH]; intros w H; [exact H|].
  rewrite run_cons. apply IH, step_wake_inv, H.
Qed.

(** C7: for a task that starts at tick [start], the wake times handed to
    [vTaskDelayUntil] are, in order, [start + k * TASK_DELAY] for
    k = 1, 2, ..., whatever the tick count is when the task comes to wait
    and however the other events interleave: each one is the previous wake
    time plus the period.  The sum is a [TickType_t] sum: it is
    [start + k * TASK_DELAY] itself while that fits in [TickType_t], and
    wraps with the tick count beyond. *)
Theorem C7_wake_times_no_drift (w : world) (evs : list event) :
  pc w = L_init -> wake_times (log w) = [] ->
  let start := xTickCount w in
  let w' := run cfg evs (step cfg E_task w) in
  let n := length (wake_times (log w')) in
  rev (wake_times (log w')) = map (scheduled_wake cfg start) (seq 1 n) /\
  (forall k, (1 <= k <= n)%nat ->
     nth_error (rev (wake_times (log w'))) (k - 1)
     = Some (wrapT (tw cfg) (start + Z.of_nat k * TASK_DELAY cfg))) /\
  (forall k, (1 <= k <= n)%nat ->
     0 <= start + Z.of_nat k * TASK_DELAY cfg < 2 ^ tick_bits (tw cfg) ->
     nth_error (rev (wake_times (log w'))) (k - 1)
     = Some (start + Z.of_nat k * TASK_DELAY cfg)) /\
  last_wake_time w' = wake_after cfg start n /\
  (pc w' = L_delay ->
   wake_times (log (step cfg E_task w'))
   = wrapT (tw cfg) (last_wake_time w' + TASK_DELAY cfg)
       :: wake_times (log w') /\
   wrapT (tw cfg) (last_wake_time w' + TASK_DELAY cfg)
   = scheduled_wake cfg start (S n)).
Proof.
  intros Hpc Hlog. cbv zeta.
  assert (H1 : wake_inv cfg (xTickCount w) (step cfg E_task w)).
  { cbn [step]. rewrite (task_init w Hpc). unfold wake_inv.
    cbn [pc log last_wake_time set_pc set_last_wake_time]. rewrite Hlog.
    split; [discriminate | split; reflexivity]. }
  pose proof (run_wake_inv _ evs _ H1) as (Hne & Hlast & Hlist).
  set (w' := run cfg evs (step cfg E_task w)) in *.
  assert (Hk : forall k, (1 <= k <= length (wake_times (log w')))%nat ->
            nth_error (rev (wake_times (log w'))) (k - 1)
            = Some (wrapT (tw cfg)
                      (xTickCount w + Z.of_nat k * TASK_DELAY cfg))).
  { intros k Hk. rewrite Hlist.
    replace (k - 1)%nat with (pred k) by lia.
    rewrite nth_error_map.
    assert (Hnth : nth_error (seq 1 (length (wake_times (log w')))) (pred k)
                   = Some k).
    { rewrite nth_error_nth' with (d := O) by (rewrite length_seq; lia).
      rewrite seq_nth by lia. f_equal. lia. }
    rewrite Hnth. reflexivity. }
  split; [exact Hlist|]. split; [exact Hk|].
  split; [|split; [exact Hlast|]].
  - intros k Hkn Hfit. rewrite (Hk k Hkn). unfold wrapT.
    rewrite Z.mod_small by exact Hfit. reflexivity.
  - intros Hd. cbn [step]. rewrite (task_delay w' Hd). cbv zeta.
    cbn [log set_pc set_last_wake_time record wake_times].
    split; [reflexivity|]. rewrite Hlast. apply wake_after_next.
Qed.

(** *** The status-pin message *)

(** C2: for the reading 622 the conversion gives about 49.68 (77 / 1.55),
    between 49.67 and 49.68; and when [_bat_stat] is 1, the status-pin
    message the task sends carries 1. *)
Theorem C2_percent_622_and_status (w : world) :
  pc w = L_send_stat -> _bat_stat w = 1 ->
  between (4967 # 100) (4968 # 100) (BAT_PERCENT (fmt cfg) 622) /\
  batstatpin_msg cfg w = mk_msg XM_MSG_BATSTATPIN (of_Z (fmt cfg) 1) /\
  between 1 1 (value (batstatpin_msg cfg w)) /\
  (exists ok,
     log (step cfg E_task w) = A_send (batstatpin_msg cfg w) ok :: log w) /\
  ((length (display_queue w) < display_queue_len cfg)%nat ->
   display_queue (step cfg E_task w)
   = display_queue w ++ [batstatpin_msg cfg w]).
Proof.
  intros Hpc Hstat.
  split; [apply Percent.percent_622|].
  assert (Hmsg : batstatpin_msg cfg w
                 = mk_msg XM_MSG_BATSTATPIN (of_Z (fmt cfg) 1))
    by (unfold batstatpin_msg; rewrite Hstat; reflexivity).
  split; [exact Hmsg|]. split.
  { rewrite Hmsg. cbn [value]. apply CDoubleFacts.betweenb_between.
    destruct (fmt cfg); vm_compute; reflexivity. }
  cbn [step]. rewrite (task_send_stat w Hpc). split.
  - destruct (xQueueSendToBack _ _ _); cbn [log set_pc record];
      eexists; reflexivity.
  - intros Hroom. rewrite xQueueSendToBack_room by exact Hroom. reflexivity.
Qed.

End WithConfig.

(** ** The model at work *)

Lemma C2_percent_622_and_status_witness :
  let w := set_pc L_send_stat
             (set_sample 622 1 (world0 (mk_adc_regs 0 0 0) 0)) in
  pc w = L_send_stat /\ _bat_stat w = 1 /\
  display_queue (step test_config E_task w)
  = [mk_msg XM_MSG_BATSTATPIN (S754_finite false 8388608 (-23))].
Proof.
  cbv zeta. split; [reflexivity|]. split; [reflexivity|].
  exact (proj2 (proj2 (proj2 (proj2
    (C2_percent_622_and_status test_config
       (set_pc L_send_stat
          (set_sample 622 1 (world0 (mk_adc_regs 0 0 0) 0)))
       eq_refl eq_refl))))
    ltac:(cbn; lia)).
Defined.

Lemma C6_suspend_blocks_in_drain_witness :
  let susp := mk_msg XM_MSG_TASKSUSP_REQ (S754_zero false) in
  let other := mk_msg (XM_MSG_OTHER 7) (S754_zero false) in
  let w := set_pc L_recv
             (set_battery_queue [susp; other]
                (world0 (mk_adc_regs 0 0 0) 0)) in
  let evs := [E_task; E_post other; E_tick; E_task] in
  pc (run test_config evs (step test_config E_task w)) = L_notify_wait /\
  received (log (run test_config evs (step test_config E_task w))) = [susp].
Proof.
  cbv zeta.
  pose proof (C6_suspend_blocks_in_drain test_config
    (set_pc L_recv
       (set_battery_queue
          [mk_msg XM_MSG_TASKSUSP_REQ (S754_zero false);
           mk_msg (XM_MSG_OTHER 7) (S754_zero false)]
          (world0 (mk_adc_regs 0 0 0) 0)))
    (mk_msg XM_MSG_TASKSUSP_REQ (S754_zero false))
    [mk_msg (XM_MSG_OTHER 7) (S754_zero false)]
    [E_task; E_post (mk_msg (XM_MSG_OTHER 7) (S754_zero false));
     E_tick; E_task]
    eq_refl eq_refl eq_refl) as H.
  cbv zeta in H. destruct H as (_ & _ & H & _).
  destruct (H eq_refl eq_refl) as ((_ & Hpc & _ & Hrecv & _) & _).
  split; [exact Hpc | exact Hrecv].
Defined.

(** A notification sent before the suspend request is still pending when
    the request is received: the task passes the wait at once and takes
    the message behind the request, with no notification after it. *)
Lemma C6_pending_notification_passes :
  let susp := mk_msg XM_MSG_TASKSUSP_REQ (S754_zero false) in
  let other := mk_msg (XM_MSG_OTHER 7) (S754_zero false) in
  let w := run test_config
             ([E_post susp; E_post other; E_notify; E_task; E_task]
              ++ repeat E_tick 100)
             (world0 (mk_adc_regs 0 0 0) 0) in
  let w1 := step test_config E_task w in
  (pc w = L_recv /\ battery_queue w = [susp; other]) /\
  (pc w1 = L_notify_wait /\ received (log w1) = [susp] /\
   battery_queue w1 = [other]) /\
  (exists w2, batmon_task test_config w1 = Some w2 /\ pc w2 = L_recv) /\
  received (log (run test_config [E_task; E_task] w1)) = [other; susp] /\
  battery_queue (run test_config [E_task; E_task] w1) = [].
Proof.
  cbv zeta. split; [split; vm_compute; reflexivity|].
  split; [repeat split; vm_compute; reflexivity|].
  split; [eexists; split; vm_compute; reflexivity|].
  split; vm_compute; reflexivity.
Qed.

Lemma C7_wake_times_no_drift_witness :
  let w := world0 (mk_adc_regs 0 0 0) 1000 in
  pc w = L_init /\ wake_times (log w) = [] /\
  rev (wake_times
         (log (run test_config one_period (step test_config E_task w))))
  = [1100; 1200].
Proof.
  cbv zeta. split; [reflexivity|]. split; [reflexivity|].
  exact (proj1 (C7_wake_times_no_drift test_config
                  (world0 (mk_adc_regs 0 0 0) 1000) one_period
                  eq_refl eq_refl)).
Defined.

Lemma C5_drain_ignored_witness :
  let other := mk_msg (XM_MSG_OTHER 7) (S754_zero false) in
  let w := set_pc L_recv
             (set_battery_queue [other; other]
                (world0 (mk_adc_regs 0 0 0) 0)) in
  battery_queue
    (run test_config [E_task; E_task; E_task] w) = [] /\
  pc (run test_config [E_task; E_task; E_task] w) = L_send_lvl.
Proof.
  cbv zeta.
  pose proof (C5_drain_ignored test_config
    (set_pc L_recv
       (set_battery_queue
          [mk_msg (XM_MSG_OTHER 7) (S754_zero false);
           mk_msg (XM_MSG_OTHER 7) (S754_zero false)]
          (world0 (mk_adc_regs 0 0 0) 0)))
    [mk_msg (XM_MSG_OTHER 7) (S754_zero false);
     mk_msg (XM_MSG_OTHER 7) (S754_zero false)]
    eq_refl eq_refl
    ltac:(repeat constructor)) as H.
  cbv zeta in H. destruct H as (_ & _ & Hpc & Hq & _).
  split; [exact Hq | exact Hpc].
Defined.

(** The registers after [init_adc], from the reset state: reference 1.1 V
    and channel ADC3, the ADC enabled and started with auto trigger,
    interrupt and prescaler 64, free running. *)
Example init_adc_from_reset :
  init_adc (mk_adc_regs 0 0 0) = mk_adc_regs 0x83 0xEE 0.
Proof. reflexivity. Qed.

(** The handler keeps the two low bits of [ADCH] and bit 0 of [PINA]. *)
Example ISR_sample :
  let w := ISR_ADC_vect 0x6E 0xFE 0xA5 (world0 (mk_adc_regs 0 0 0) 0) in
  _bat_lvl w = 0x26E /\ _bat_stat w = 1.
Proof. split; reflexivity. Qed.

(** Across a wrap of the 16-bit tick count the wake times go on by the
    period. *)
Example wake_times_wrap :
  rev (wake_times
         (log (run test_config one_period
                 (step test_config E_task
                    (world0 (mk_adc_regs 0 0 0) 65500)))))
  = [64; 164].
Proof. vm_compute. reflexivity. Qed.

(** Three periods with nobody taking from the display queue of four
    slots: two messages are sent in each of the first two, and in the third
    the battery level is refused and the status pin is not attempted. *)
Example sends_of_three_periods :
  let w := run test_config (one_period ++ one_period ++ one_period)
             (step test_config E_task (world0 (mk_adc_regs 0 0 0) 1000)) in
  map (fun t => rev (sends_of_tick t)) (rev (ticks (log w)))
  = [ [(XM_MSG_BATLVL, true); (XM_MSG_BATSTATPIN, true)];
      [(XM_MSG_BATLVL, true); (XM_MSG_BATSTATPIN, true)];
      [(XM_MSG_BATLVL, false)];
      [] ].
Proof. vm_compute. reflexivity. Qed.

End Loop.

(** ** More on the interrupt handler and on the conversion *)

Module SampleMore.
Import CInt CDouble BatMon CIntFacts CDoubleFacts.

Lemma level_of_bytes (h l : Z) :
  0 <= h < 256 -> 0 <= l < 256 ->
  wrap16 (Z.lor (Z.land (wrap16 (Z.shiftl h 8)) 0x0300) l)
  = 256 * (h mod 4) + l.
Proof.
  intros Hh Hl. apply Z.eqb_eq.
  apply (forall_segment
    (fun l => wrap16 (Z.lor (Z.land (wrap16 (Z.shiftl h 8)) 0x0300) l)
              =? 256 * (h mod 4) + l) 0 256); [|lia].
  apply (forall_segment
    (fun h => forallb
       (fun k => wrap16 (Z.lor (Z.land (wrap16 (Z.shiftl h 8)) 0x0300)
                           (0 + Z.of_nat k))
                 =? 256 * (h mod 4) + (0 + Z.of_nat k)) (seq 0 256))
    0 256); [vm_compute; reflexivity | lia].
Qed.

Lemma status_of_byte (p : Z) :
  0 <= p < 256 -> wrap8 (Z.land p 1) = p mod 2.
Proof.
  intros Hp. apply Z.eqb_eq.
  apply (forall_segment (fun p => wrap8 (Z.land p 1) =? p mod 2) 0 256);
    [vm_compute; reflexivity | lia].
Qed.

(** X5: the handler stores [256 * (ADCH mod 4) + ADCL] as the level and
    [PINA mod 2] as the status, so a 10-bit conversion result split over
    the two result registers comes back as it was; it changes nothing else
    in the system, and a later run replaces what an earlier one stored. *)
Theorem X5_ISR_reconstructs (l h p : Z) (w : world) :
  let w' := ISR_ADC_vect l h p w in
  _bat_lvl w' = 256 * (wrap8 h mod 4) + wrap8 l /\
  _bat_stat w' = wrap8 p mod 2 /\
  (forall v, 0 <= v <= 1023 ->
     _bat_lvl (ISR_ADC_vect (v mod 256) (v / 256) p w) = v) /\
  w' = set_sample (_bat_lvl w') (_bat_stat w') w /\
  (forall l0 h0 p0,
     ISR_ADC_vect l h p (ISR_ADC_vect l0 h0 p0 w) = w').
Proof.
  assert (Hlvl : forall l h p w,
            _bat_lvl (ISR_ADC_vect l h p w)
            = 256 * (wrap8 h mod 4) + wrap8 l).
  { intros l1 h1 p1 w1. unfold ISR_ADC_vect. cbn [_bat_lvl set_sample].
    apply level_of_bytes; apply wrap8_range. }
  cbv zeta. split; [apply Hlvl|]. split; [|split; [|split]].
  - unfold ISR_ADC_vect. cbn [_bat_stat set_sample].
    apply status_of_byte, wrap8_range.
  - intros v Hv. rewrite Hlvl.
    assert (Hq : 0 <= v / 256 < 4)
      by (split; [apply Z.div_pos; lia | apply Z.div_lt_upper_bound; lia]).
    assert (Hr : 0 <= v mod 256 < 256) by (apply Z.mod_pos_bound; lia).
    rewrite !wrap8_small by lia. rewrite (Z.mod_small (v / 256)) by lia.
    pose proof (Z.div_mod v 256 ltac:(lia)). lia.
  - reflexivity.
  - intros l0 h0 p0. destruct w. reflexivity.
Qed.

(** *** The conversion above [BAT_MIN] *)

Lemma lt_valb_lt_val (x y : spec_float) : lt_valb x y = true -> lt_val x y.
Proof.
  unfold lt_valb, lt_val.
  destruct (to_Q x) as [qx|]; [|discriminate].
  destruct (to_Q y) as [qy|]; [|discriminate].
  intros H. exists qx, qy. repeat split.
  apply Qnot_le_lt. intros Hle. apply Qle_bool_iff in Hle.
  rewrite Hle in H. discriminate.
Qed.

Lemma lt_val_trans (x y z : spec_float) :
  lt_val x y -> lt_val y z -> lt_val x z.
Proof.
  intros (qx & qy & Hx & Hy & Hxy) (qy' & qz & Hy' & Hz & Hyz).
  rewrite Hy in Hy'. injection Hy' as <-.
  exists qx, qz. repeat split; try assumption.
  apply Qlt_trans with qy; assumption.
Qed.

Lemma percent_next (fmt : double_format) (r : Z) :
  BAT_MIN <= r < 1023 ->
  lt_val (BAT_PERCENT fmt r) (BAT_PERCENT fmt (r + 1)).
Proof.
  intros H. apply lt_valb_lt_val.
  apply (forall_segment
    (fun r => lt_valb (BAT_PERCENT fmt r) (BAT_PERCENT fmt (r + 1)))
    545 478).
  - destruct fmt; vm_compute; reflexivity.
  - unfold BAT_MIN in H. lia.
Qed.

Lemma percent_increasing (fmt : double_format) (n : nat) :
  forall r, BAT_MIN <= r -> r + Z.of_nat (S n) <= 1023 ->
    lt_val (BAT_PERCENT fmt r) (BAT_PERCENT fmt (r + Z.of_nat (S n))).
Proof.
  induction n as [|n IH]; intros r Hlo Hhi.
  - apply percent_next. lia.
  - apply lt_val_trans with (BAT_PERCENT fmt (r + Z.of_nat (S n))).
    + apply IH; lia.
    + replace (r + Z.of_nat (S (S n))) with (r + Z.of_nat (S n) + 1) by lia.
      apply percent_next. lia.
Qed.

(** X6: from [BAT_MIN] up to the largest 10-bit reading the percentage is
    strictly increasing in the reading: a higher level never shows as a
    lower or an equal percentage, in either format of [double]. *)
Theorem X6_percent_strictly_increasing (fmt : double_format) (r1 r2 : Z) :
  BAT_MIN <= r1 -> r1 < r2 -> r2 <= 1023 ->
  lt_val (BAT_PERCENT fmt r1) (BAT_PERCENT fmt r2).
Proof.
  intros H1 H12 H2.
  replace r2 with (r1 + Z.of_nat (S (Z.to_nat (r2 - r1 - 1)))) by lia.
  apply percent_increasing; lia.
Qed.

Lemma X6_percent_strictly_increasing_witness :
  BAT_MIN <= 545 /\ 545 < 1023 /\ 1023 <= 1023 /\
  lt_val (BAT_PERCENT Binary32 545) (BAT_PERCENT Binary32 1023).
Proof.
  unfold BAT_MIN. split; [lia|]. split; [lia|]. split; [lia|].
  exact (X6_percent_strictly_increasing Binary32 545 1023
           ltac:(unfold BAT_MIN; lia) ltac:(lia) ltac:(lia)).
Defined.

(** X7: for every 10-bit reading from [BAT_MIN] up, the percentage the
    macro computes is within 0.0001 of the exact quotient
    (r - 545) / 1.55, in either format of [double]. *)
Theorem X7_percent_accuracy (fmt : double_format) (r : Z) :
  BAT_MIN <= r <= 1023 ->
  between (BAT_PERCENT_spec r - (1 # 10000)) (BAT_PERCENT_spec r + (1 # 10000))
    (BAT_PERCENT fmt r).
Proof.
  intros H. apply betweenb_between.
  apply (forall_segment
           (fun r => betweenb (BAT_PERCENT_spec r - (1 # 10000))
                       (BAT_PERCENT_spec r + (1 # 10000))
                       (BAT_PERCENT fmt r)) 545 479).
  - destruct fmt; vm_compute; reflexivity.
  - unfold BAT_MIN in H. lia.
Qed.

Lemma X7_percent_accuracy_witness :
  BAT_MIN <= 1023 <= 1023 /\
  between (BAT_PERCENT_spec 1023 - (1 # 10000))
          (BAT_PERCENT_spec 1023 + (1 # 10000))
          (BAT_PERCENT Binary32 1023).
Proof.
  split; [unfold BAT_MIN; lia|].
  exact (X7_percent_accuracy Binary32 1023 ltac:(unfold BAT_MIN; lia)).
Defined.

(** Every 10-bit reading gives a finite percentage from 0 to 42281. *)
Lemma percent_of_sample (fmt : double_format) (v : Z) :
  0 <= v <= 1023 -> between 0 42281 (BAT_PERCENT fmt v).
Proof.
  intros H. apply betweenb_between.
  apply (forall_segment
           (fun r => betweenb 0 42281 (BAT_PERCENT fmt r)) 0 1024).
  - destruct fmt; vm_compute; reflexivity.
  - lia.
Qed.

End SampleMore.

(** ** More on the initialisation and on the task loop *)

Module LoopMore.
Import CInt CDouble BatMon.

(** X8: [xt_init_battery_monitor] returns 0 or 1 and nothing else; it
    never writes [*task_handle] itself (the slot holds what [xTaskCreate]
    left there); of the state it changes the ADC registers, [_task_handle]
    and nothing more, and the registers are the same after a second call,
    whatever [xTaskCreate] answers. *)
Theorem X8_init_frame (xTaskCreate : world -> Z -> Z * option TaskHandle_t)
    (prio : Z) (slot : TaskHandle_t) (w : world) :
  let '(rc, slot', w') := xt_init_battery_monitor xTaskCreate prio slot w in
  (rc = 0 \/ rc = 1) /\
  slot' = created_handle xTaskCreate prio slot w /\
  (_bat_lvl w' = _bat_lvl w /\ _bat_stat w' = _bat_stat w /\
   pc w' = pc w /\ last_wake_time w' = last_wake_time w /\
   xTickCount w' = xTickCount w /\ battery_queue w' = battery_queue w /\
   display_queue w' = display_queue w /\
   notify_pending w' = notify_pending w) /\
  (forall xTaskCreate2 prio2 slot2,
     regs (snd (xt_init_battery_monitor xTaskCreate2 prio2 slot2 w'))
     = regs w').
Proof.
  rewrite Init.init_unfold. cbv zeta.
  assert (Hregs : forall k p s w0,
            regs (snd (xt_init_battery_monitor k p s w0))
            = init_adc (regs w0)).
  { intros k p s w0. rewrite Init.init_unfold. cbv zeta.
    destruct (create_status k p w0 =? pdPASS); reflexivity. }
  destruct (create_status xTaskCreate prio w =? pdPASS).
  - split; [left; reflexivity|]. split; [reflexivity|].
    split; [repeat split|].
    intros k p s. rewrite Hregs. cbn. apply Registers.init_adc_twice.
  - split; [right; reflexivity|]. split; [reflexivity|].
    split; [repeat split|].
    intros k p s. rewrite Hregs. cbn. apply Registers.init_adc_twice.
Qed.

Section WithConfig.

Variable cfg : config.

(** *** The publish step by free slots *)

(** X10: what the two publish steps put into the display queue depends on
    its free slots: with two or more, the battery level and the status
    pin, in this order; with exactly one, the battery level alone, and the
    status pin is refused and dropped; in both cases the task is then at
    the wait for the next wake. *)
Theorem X10_publish_by_room (w : world) :
  pc w = L_send_lvl ->
  let w' := run cfg [E_task; E_task] w in
  ((length (display_queue w) + 2 <= display_queue_len cfg)%nat ->
   display_queue w'
   = display_queue w ++ [batlvl_msg cfg w; batstatpin_msg cfg w] /\
   pc w' = L_delay /\
   log w' = A_send (batstatpin_msg cfg w) true
              :: A_send (batlvl_msg cfg w) true :: log w) /\
  ((length (display_queue w) + 1 = display_queue_len cfg)%nat ->
   display_queue w' = display_queue w ++ [batlvl_msg cfg w] /\
   pc w' = L_delay /\
   log w' = A_send (batstatpin_msg cfg w) false
              :: A_send (batlvl_msg cfg w) true :: log w).
Proof.
  intros Hpc. cbv zeta. rewrite !Loop.run_cons. cbn [run fold_left step].
  split; intros Hroom.
  - rewrite (Loop.task_send_lvl cfg w Hpc).
    rewrite Loop.xQueueSendToBack_room by lia.
    set (w1 := set_pc L_send_stat _).
    rewrite (Loop.task_send_stat cfg w1 eq_refl).
    rewrite Loop.xQueueSendToBack_room
      by (cbn; rewrite length_app; cbn; lia).
    cbn. rewrite <- app_assoc. repeat split.
  - rewrite (Loop.task_send_lvl cfg w Hpc).
    rewrite Loop.xQueueSendToBack_room by lia.
    set (w1 := set_pc L_send_stat _).
    rewrite (Loop.task_send_stat cfg w1 eq_refl).
    rewrite Loop.xQueueSendToBack_full
      by (cbn; rewrite length_app; cbn; lia).
    cbn. repeat split.
Qed.

(** *** What the task sends *)

(** A step hands at most one message to [xQueueSendToBack]: the battery
    level or the status pin of the state it starts in. *)
Lemma step_sent_cases (e : event) (w : world) :
  sent (log (step cfg e w)) = sent (log w) \/
  exists m,
    (m = batlvl_msg cfg w \/ m = batstatpin_msg cfg w) /\
    sent (log (step cfg e w)) = m :: sent (log w).
Proof.
  destruct e; cbn [step].
  - destruct (pc w) eqn:Hpc.
    + rewrite (Loop.task_init cfg w Hpc). left. reflexivity.
    + rewrite (Loop.task_delay cfg w Hpc). left. reflexivity.
    + rewrite (Loop.task_delayed cfg w Hpc). left. reflexivity.
    + unfold batmon_task. rewrite Hpc.
      destruct (xQueueReceive (battery_queue w)) as [[m q]|];
        [destruct (type m)|]; left; reflexivity.
    + rewrite (Loop.task_notify_wait cfg w Hpc).
      destruct (notify_pending w); left; reflexivity.
    + rewrite (Loop.task_send_lvl cfg w Hpc). right.
      exists (batlvl_msg cfg w). split; [left; reflexivity|].
      destruct (xQueueSendToBack _ _ _); reflexivity.
    + rewrite (Loop.task_send_stat cfg w Hpc). right.
      exists (batstatpin_msg cfg w). split; [right; reflexivity|].
      destruct (xQueueSendToBack _ _ _); reflexivity.
  - left. unfold tick. cbn [pc set_xTickCount last_wake_time].
    destruct (pc w); try reflexivity. destruct (_ =? _); reflexivity.
  - left. reflexivity.
  - left. destruct (xQueueSendToBack _ _ _); reflexivity.
  - left. reflexivity.
  - left. reflexivity.
Qed.

Lemma display_msg_ok_lvl (w : world) :
  sample_ok w -> display_msg_ok (fmt cfg) (batlvl_msg cfg w).
Proof.
  intros [Hlvl _]. left. split; [reflexivity|].
  apply SampleMore.percent_of_sample, Hlvl.
Qed.

Lemma display_msg_ok_stat (w : world) :
  sample_ok w -> display_msg_ok (fmt cfg) (batstatpin_msg cfg w).
Proof.
  intros [_ Hstat]. right. split; [reflexivity|].
  unfold batstatpin_msg. cbn [value].
  destruct Hstat as [-> | ->]; auto.
Qed.

Lemma step_sent_inv (e : event) (w : world) :
  sent_inv cfg w -> sent_inv cfg (step cfg e w).
Proof.
  intros (Hs & Hall).
  split; [apply Sample.step_sample_ok, Hs|].
  destruct (step_sent_cases e w) as [E | (m & Hm & E)]; rewrite E.
  - exact Hall.
  - constructor; [|exact Hall].
    destruct Hm as [-> | ->];
      [apply display_msg_ok_lvl | apply display_msg_ok_stat]; exact Hs.
Qed.

Lemma run_sent_inv (evs : list event) (w : world) :
  sent_inv cfg w -> sent_inv cfg (run cfg evs w).
Proof.
  revert w. induction evs as [|e evs IH]; intros w H; [exact H|].
  rewrite Loop.run_cons. apply IH, step_sent_inv, H.
Qed.

(** X11: in every run from startup, every message the task hands to
    [xQueueSendToBack], accepted or refused, is a battery level with a
    finite value from 0 to 42281 (never a negative number, an infinity or
    a NaN) or a status pin with the value 0 or 1: the interrupt handler
    keeps the level in 10 bits and the status in one, and the task sends
    them as it reads them. *)
Theorem X11_sent_messages_content (evs : list event) (r : adc_regs)
    (now : Z) :
  Forall (display_msg_ok (fmt cfg))
    (sent (log (run cfg evs (world0 r now)))).
Proof.
  assert (H0 : sent_inv cfg (world0 r now)).
  { split; [|constructor]. unfold sample_ok. cbn. lia. }
  apply (run_sent_inv evs) in H0. apply H0.
Qed.

(** *** What the running system leaves alone *)

Lemma step_config_frame (e : event) (w : world) :
  regs (step cfg e w) = regs w /\
  _task_handle (step cfg e w) = _task_handle w.
Proof.
  destruct e; cbn [step]; try (split; reflexivity).
  - destruct (batmon_task cfg w) as [w'|] eqn:Ht; [|split; reflexivity].
    unfold batmon_task in Ht.
    destruct (pc w);
      repeat match type of Ht with
      | context [match ?x with _ => _ end] => destruct x
      end;
      try discriminate; injection Ht as <-; split; reflexivity.
  - unfold tick. cbn [pc set_xTickCount last_wake_time].
    destruct (pc w); try (split; reflexivity).
    destruct (_ =? _); split; reflexivity.
  - destruct (xQueueSendToBack _ _ _); split; reflexivity.
Qed.

(** X14: once the system runs, nothing changes the ADC configuration or
    the stored task handle: neither the task, nor the interrupt handler,
    nor any other event writes [ADMUX], [ADCSRA], [ADCSRB] or
    [_task_handle]. *)
Theorem X14_configuration_kept (evs : list event) (w : world) :
  regs (run cfg evs w) = regs w /\
  _task_handle (run cfg evs w) = _task_handle w.
Proof.
  revert w. induction evs as [|e evs IH]; intros w; [split; reflexivity|].
  rewrite Loop.run_cons.
  destruct (IH (step cfg e w)) as [H1 H2].
  destruct (step_config_frame e w) as [S1 S2].
  rewrite H1, H2. split; assumption.
Qed.

(** *** The drain step up to a suspend request *)

Lemma drain_ignored_prefix (ignored : list xm_msg_t) :
  forall (rest : list xm_msg_t) (w : world),
    pc w = L_recv -> battery_queue w = ignored ++ rest ->
    Forall (fun m => is_suspend_request m = false) ignored ->
    let wk := run cfg (repeat E_task (length ignored)) w in
    pc wk = L_recv /\ battery_queue wk = rest /\
    log wk = rev (map A_recv ignored) ++ log w /\
    notify_pending wk = notify_pending w /\
    display_queue wk = display_queue w.
Proof.
  induction ignored as [|m q IH]; intros rest w Hpc Hq Hall; cbv zeta.
  - cbn. auto.
  - inversion Hall as [|? ? Hm Hall']; subst.
    cbn [length repeat]. rewrite Loop.run_cons. cbn [step].
    rewrite (Loop.task_recv_ignored cfg w m (q ++ rest) Hpc Hq Hm).
    set (w1 := set_pc L_recv _).
    destruct (IH rest w1 eq_refl eq_refl Hall') as (H1 & H2 & H3 & H4 & H5).
    split; [exact H1|]. split; [exact H2|]. split; [|split; assumption].
    rewrite H3. cbn. rewrite <- app_assoc. reflexivity.
Qed.

(** X15: on a control queue that holds ignored messages, then a suspend
    request, then anything, and with no notification pending, the drain
    step takes the ignored messages and the suspend request and stops
    there, blocked: what is behind the suspend request stays queued, the
    display queue gets nothing, and further turns of the task change
    nothing. *)
Theorem X15_drain_stops_at_suspend (w : world)
    (ignored rest : list xm_msg_t) (m : xm_msg_t) (n : nat) :
  pc w = L_recv -> battery_queue w = ignored ++ m :: rest ->
  Forall (fun m => is_suspend_request m = false) ignored ->
  type m = XM_MSG_TASKSUSP_REQ ->
  notify_pending w = false ->
  let w' := run cfg (repeat E_task (S (length ignored))) w in
  pc w' = L_notify_wait /\
  battery_queue w' = rest /\
  log w' = A_recv m :: rev (map A_recv ignored) ++ log w /\
  display_queue w' = display_queue w /\
  batmon_task cfg w' = None /\
  run cfg (repeat E_task n) w' = w'.
Proof.
  intros Hpc Hq Hall Hm Hn. cbv zeta.
  destruct (drain_ignored_prefix ignored (m :: rest) w Hpc Hq Hall)
    as (H1 & H2 & H3 & H4 & H5).
  rewrite Loop.run_repeat_S. cbn [step].
  rewrite (Loop.task_recv_suspend cfg _ m rest H1 H2 Hm).
  set (w' := set_pc L_notify_wait _).
  assert (Hb : batmon_task cfg w' = None).
  { rewrite (Loop.task_notify_wait cfg w' eq_refl).
    change (notify_pending w')
      with (notify_pending (run cfg (repeat E_task (length ignored)) w)).
    rewrite H4, Hn. reflexivity. }
  split; [reflexivity|]. split; [reflexivity|].
  split; [cbn; rewrite H3; reflexivity|].
  split; [exact H5|]. split; [exact Hb|].
  induction n as [|n IH]; [reflexivity|].
  cbn [repeat]. rewrite Loop.run_cons. cbn [step]. rewrite Hb. exact IH.
Qed.

End WithConfig.

Lemma X10_publish_by_room_witness :
  let w := set_pc L_send_lvl
             (set_display_queue
                (repeat (mk_msg XM_MSG_BATLVL (S754_zero false)) 3)
                (world0 (mk_adc_regs 0 0 0) 0)) in
  pc w = L_send_lvl /\
  (length (display_queue w) + 1 = display_queue_len test_config)%nat /\
  display_queue (run test_config [E_task; E_task] w)
  = display_queue w ++ [batlvl_msg test_config w].
Proof.
  cbv zeta. split; [reflexivity|]. split; [reflexivity|].
  exact (proj1 (proj2
    (X10_publish_by_room test_config
       (set_pc L_send_lvl
          (set_display_queue
             (repeat (mk_msg XM_MSG_BATLVL (S754_zero false)) 3)
             (world0 (mk_adc_regs 0 0 0) 0)))
       eq_refl) eq_refl)).
Defined.

(** A conversion result of 622 with the status pin high, then one period:
    the task sends the level of 622 and the status 1. *)
Example sent_of_one_period :
  rev (sent (log (run test_config (E_adc 0x6E 0x02 0x01 :: one_period)
                    (step test_config E_task
                       (world0 (mk_adc_regs 0 0 0) 1000)))))
  = [mk_msg XM_MSG_BATLVL (BAT_PERCENT Binary32 622);
     mk_msg XM_MSG_BATSTATPIN (of_Z Binary32 1)].
Proof. vm_compute. reflexivity. Qed.

Lemma X15_drain_stops_at_suspend_witness :
  let susp := mk_msg XM_MSG_TASKSUSP_REQ (S754_zero false) in
  let other := mk_msg (XM_MSG_OTHER 7) (S754_zero false) in
  let w := set_pc L_recv
             (set_battery_queue [other; susp; other]
                (world0 (mk_adc_regs 0 0 0) 0)) in
  battery_queue (run test_config (repeat E_task 2) w) = [other] /\
  pc (run test_config (repeat E_task 2) w) = L_notify_wait.
Proof.
  cbv zeta.
  pose proof (X15_drain_stops_at_suspend test_config
    (set_pc L_recv
       (set_battery_queue
          [mk_msg (XM_MSG_OTHER 7) (S754_zero false);
           mk_msg XM_MSG_TASKSUSP_REQ (S754_zero false);
           mk_msg (XM_MSG_OTHER 7) (S754_zero false)]
          (world0 (mk_adc_regs 0 0 0) 0)))
    [mk_msg (XM_MSG_OTHER 7) (S754_zero false)]
    [mk_msg (XM_MSG_OTHER 7) (S754_zero false)]
    (mk_msg XM_MSG_TASKSUSP_REQ (S754_zero false)) 0
    eq_refl eq_refl ltac:(repeat constructor) eq_refl eq_refl) as H.
  cbv zeta in H. destruct H as (Hpc & Hq & _).
  split; [exact Hq | exact Hpc].
Defined.

End LoopMore.
